(** * BlossomHub: order processing and user authorization

    A shallow embedding of the two controllers that carry the logic of the
    BlossomHub REST backend:

    - [controllers/ordersController.js]: [createOrder] (price snapshot and
      total) and [updateOrderStatus] (status lifecycle);
    - [controllers/userController.js]: [createUser], [getUserById],
      [updateUser] and [deleteUser] (ownership check, field filter,
      last-admin guard), over the schema of [models/User.js] (declared
      paths, required and unique paths).

    Every handler is an [async] function over Mongoose collections. A
    collection is a finite map from the document [_id] to the document, a
    handler is a function from the request and the collections it touches to
    the response it sends and the collections it leaves behind. What the
    runtime supplies on its own (a new ObjectId, [Date.now()]) is an explicit
    argument. Ids are opaque: a string used as an id stands for a
    well-formed ObjectId, and the CastError that Mongoose raises for a
    malformed one is outside the model. *)

From stdpp Require Import gmap strings list fin_maps.
From Stdlib Require Import ZArith.

Open Scope string_scope.
Open Scope list_scope.

(** ** Responses

    A handler ends in exactly one of three ways: it sends a success body, it
    sends an error body, or it hands an [Error] to [next]. *)

Inductive Response (A : Type) : Type :=
| Json (status : nat) (data : A)
    (* res.status(status).json({ success: true, data }) *)
| JsonError (status : nat) (error : string)
    (* res.status(status).json({ success: false, error }), or { message } *)
| Next (statusCode : option nat) (message : string).
    (* next(error), with error.statusCode when the handler set one *)

Arguments Json {A} status data.
Arguments JsonError {A} status error.
Arguments Next {A} statusCode message.

(** The HTTP status the client sees when the handler answered itself. *)
Definition statusOf {A} (r : Response A) : option nat :=
  match r with
  | Json s _ => Some s
  | JsonError s _ => Some s
  | Next s _ => s
  end.

(** The [data] of a success body. *)
Definition dataOf {A} (r : Response A) : option A :=
  match r with
  | Json _ d => Some d
  | _ => None
  end.

(** ** JavaScript numbers

    [createOrder] uses three things of a JavaScript number: the literal [0],
    [+] and [*]. The development is parametric in them, so that what is
    proved holds for IEEE doubles as it does for exact decimals. *)

Class JsNumber (num : Type) : Type := {
  nzero : num;
  nadd : num → num → num;
  nmul : num → num → num;
}.

#[export] Instance Z_JsNumber : JsNumber Z :=
  {| nzero := 0%Z; nadd := Z.add; nmul := Z.mul |}.

(** ** Orders *)

Module Orders.

Section WithNumbers.
Context {num : Type} `{JsNumber num}.

(** A [Flower] document of the catalog; its [_id] is the key it is stored
    under. [createOrder] reads [_id] and [price]. *)
Record Flower : Type := { name : string; price : num }.

(** One entry of [req.body.items]. *)
Record ItemInput : Type := { item_flower : string; item_quantity : num }.

(** One entry of [orderItems]. *)
Record OrderItem : Type := {
  flower : string;
  quantity : num;
  priceAtPurchase : num;
}.

Record Order : Type := {
  user : string;
  items : list OrderItem;
  totalAmount : num;
  shippingAddress : string;
  status : string;
  createdAt : Z;
  updatedAt : Z;
}.

(** The body of [for (const item of items)], run over the remaining
    entries with the current [totalAmount] and [orderItems]. [inl id] is
    the early [return next(error)] for the flower [id]. *)
Fixpoint priceItems (catalog : gmap string Flower) (its : list ItemInput)
    (totalAmount : num) (orderItems : list OrderItem)
    : string + (num * list OrderItem) :=
  match its with
  | [] => inr (totalAmount, orderItems)
  | item :: rest =>
      match catalog !! item_flower item with
      | None => inl (item_flower item)
      | Some fl =>
          let priceAtPurchase := price fl in
          let itemTotal := nmul priceAtPurchase (item_quantity item) in
          priceItems catalog rest (nadd totalAmount itemTotal)
            (orderItems ++
               [ {| flower := item_flower item;
                    quantity := item_quantity item;
                    priceAtPurchase := priceAtPurchase |} ])
      end
  end.

(** Modelled from the spec: [models/Order], the Mongoose schema behind
    [new Order({...})] and [save()], is not part of the sources. Section
    4.5 fixes what construction adds ([status = pending],
    [createdAt = updatedAt = now]) and section 6 gives the repository as
    [insert(order) -> id]: the document is stored as one unit under a new
    id. No schema validation is modelled. *)
Definition newOrder (user : string) (items : list OrderItem)
    (totalAmount : num) (shippingAddress : string) (now : Z) : Order :=
  {| user := user; items := items; totalAmount := totalAmount;
     shippingAddress := shippingAddress; status := "pending";
     createdAt := now; updatedAt := now |}.

(** Modelled from the spec: [save()] of the missing Order model, the
    [insert(order) -> id] of section 6, with [oid] the id of the new
    document. *)
Definition save (oid : string) (o : Order) (orders : gmap string Order)
    : gmap string Order :=
  <[oid := o]> orders.

(** [createOrder]: [oid] is the ObjectId the new document receives and
    [now] the value of [Date.now()]. *)
Definition createOrder (catalog : gmap string Flower)
    (orders : gmap string Order)
    (user : string) (its : list ItemInput) (shippingAddress : string)
    (oid : string) (now : Z)
    : Response Order * gmap string Order :=
  match priceItems catalog its nzero [] with
  | inl id =>
      (Next (Some 400) ("Flower not found with ID " +:+ id), orders)
  | inr (totalAmount, orderItems) =>
      let newOrder := newOrder user orderItems totalAmount shippingAddress now in
      (Json 201 newOrder, save oid newOrder orders)
  end.

Definition validStatuses : list string :=
  ["pending"; "processing"; "shipped"; "delivered"; "cancelled"].

(** The update document [{ status, updatedAt: Date.now() }] applied to a
    stored order. *)
Definition setStatus (status : string) (now : Z) (o : Order) : Order :=
  {| user := user o; items := items o; totalAmount := totalAmount o;
     shippingAddress := shippingAddress o; status := status;
     createdAt := createdAt o; updatedAt := now |}.

(** [Order.findByIdAndUpdate(id, update, { new: true })]: the updated
    document, or nothing (and no write) when [id] is not stored. *)
Definition findByIdAndUpdate (id : string) (f : Order → Order)
    (orders : gmap string Order) : option Order * gmap string Order :=
  match orders !! id with
  | None => (None, orders)
  | Some o => (Some (f o), <[id := f o]> orders)
  end.

Definition updateOrderStatus (orders : gmap string Order)
    (id : string) (status : string) (now : Z)
    : Response Order * gmap string Order :=
  if bool_decide (status ∈ validStatuses) then
    match findByIdAndUpdate id (setStatus status now) orders with
    | (None, orders') =>
        (Next (Some 404) ("Order not found with ID " +:+ id), orders')
    | (Some updatedOrder, orders') => (Json 200 updatedOrder, orders')
    end
  else (JsonError 400 "Invalid status", orders).

(** The sum the claims speak of: the line totals added up from [0], left
    to right. *)
Definition lineTotal (li : OrderItem) : num :=
  nmul (priceAtPurchase li) (quantity li).

Definition sumLines (l : list OrderItem) : num :=
  fold_left (λ acc li, nadd acc (lineTotal li)) l nzero.

(** The line item the loop pushes for an entry whose flower costs [p]. *)
Definition lineOf (it : ItemInput) (p : num) : OrderItem :=
  {| flower := item_flower it; quantity := item_quantity it;
     priceAtPurchase := p |}.

(** An entry and the line item made from it: same flower, same quantity,
    and the price the catalog holds for that flower. *)
Definition snapshotOf (catalog : gmap string Flower)
    (it : ItemInput) (li : OrderItem) : Prop :=
  flower li = item_flower it ∧ quantity li = item_quantity it
  ∧ price <$> catalog !! item_flower it = Some (priceAtPurchase li).

(** A flower id that [Flower.findById] resolves. *)
Definition resolves (catalog : gmap string Flower) (it : ItemInput) : Prop :=
  is_Some (catalog !! item_flower it).

End WithNumbers.

Arguments Flower num : clear implicits.
Arguments ItemInput num : clear implicits.
Arguments OrderItem num : clear implicits.
Arguments Order num : clear implicits.

End Orders.

(** ** Users *)

Module Users.

(** The JSON values that occur as field values of a user document and of a
    request body, as [express.json()] delivers them. A number is an
    integer here, as the timestamps are; no handler computes with a number
    of a body. *)
#[warnings="-register-all"]
Inductive JsVal : Type :=
| JNull
| JBool (b : bool)
| JNum (n : Z)
| JStr (s : string)
| JArr (items : list JsVal)
| JObj (fields : list (string * JsVal)).

(** Equality of these values is decidable. *)
#[export] Instance JsVal_eq_dec : EqDecision JsVal.
Proof.
  refine (fix go (x y : JsVal) {struct x} : Decision (x = y) :=
    match x, y with
    | JNull, JNull => left _
    | JBool a, JBool b => cast_if (decide (a = b))
    | JNum a, JNum b => cast_if (decide (a = b))
    | JStr a, JStr b => cast_if (decide (a = b))
    | JArr a, JArr b => cast_if (@list_eq_dec _ go a b)
    | JObj a, JObj b => cast_if (@list_eq_dec _ (@prod_eq_dec _ _ _ go) a b)
    | _, _ => right _
    end); congruence.
Defined.

(** What [v && ...] tests. *)
Definition truthy (v : JsVal) : bool :=
  match v with
  | JNull => false
  | JBool b => b
  | JNum n => negb (n =? 0)%Z
  | JStr s => negb (bool_decide (s = ""))
  | JArr _ | JObj _ => true
  end.

(** A user document and a request body are JavaScript objects used as maps
    from field names to values. *)
Abbreviation Doc := (gmap string JsVal).

(** [req.user], as the session supplies it. A principal without a role is
    one whose [role] is not "admin"; one without an id has the id [""],
    the falsy string. *)
Record Principal : Type := { id : string; role : string }.

(** The passport profile [createUser] reads: [id], [displayName] and the
    [value]s of [emails]. *)
Record GithubUser : Type := {
  gh_id : string;
  gh_displayName : string;
  gh_emails : list string;
}.

(** [User.find({ field: v })]: the documents whose [field] is [v]. The
    filter reaches the store as it is written, also on a field that the
    schema does not declare, as [role] in [deleteUser] (the default of
    Mongoose since version 7). *)
Definition find (field : string) (v : JsVal) (users : gmap string Doc)
    : gmap string Doc :=
  filter (λ kv, kv.2 !! field = Some v) users.

Definition findOne (field : string) (v : JsVal) (users : gmap string Doc)
    : bool :=
  negb (bool_decide (find field v users = ∅)).

Definition countDocuments (field : string) (v : JsVal)
    (users : gmap string Doc) : nat :=
  size (find field v users).

(** ** The schema of [models/User.js] *)

(** The paths [userSchema] declares. *)
Definition schemaPaths : list string :=
  ["googleId"; "githubId"; "email"; "displayName"; "profilePicture";
   "isAdmin"; "createdAt"; "updatedAt"].

(** The paths declared [unique]. *)
Definition uniquePaths : list string := ["googleId"; "githubId"; "email"].

(** The paths declared [required]. *)
Definition requiredPaths : list string := ["email"].

(** The [required] validator of a string path refuses a missing value,
    [null] and the empty string. *)
Definition missingRequired (doc : Doc) : bool :=
  existsb (λ path,
             match doc !! path with
             | None | Some JNull => true
             | Some (JStr s) => bool_decide (s = "")
             | Some _ => false
             end) requiredPaths.

(** A stored document has the value that [doc] has on a unique path; the
    [sparse] indexes skip documents without the path. *)
Definition duplicateKey (doc : Doc) (users : gmap string Doc) : bool :=
  existsb (λ path,
             match doc !! path with
             | Some v => findOne path v users
             | None => false
             end) uniquePaths.

Definition validationError : string :=
  "ValidationError: User validation failed: email: Path `email` is required.".
Definition duplicateKeyError : string :=
  "MongoServerError: E11000 duplicate key error".

(** [new User(doc).save()]: the document is validated, then inserted; the
    insert is refused when a stored document already has the value of a
    unique path. In both cases nothing is written. *)
Definition save (uid : string) (doc : Doc) (users : gmap string Doc)
    : string + gmap string Doc :=
  if missingRequired doc then inl validationError
  else if duplicateKey doc users then inl duplicateKeyError
  else inr (<[uid := doc]> users).

Section CreateUser.
(** The setters of the [email] path ([trim], [lowercase]), which Mongoose
    runs on the documents it stores and on the filters it queries with. *)
Variable castEmail : string → string.
(** The setter of the [displayName] path ([trim]). *)
Variable castName : string → string.

(** [createUser] sends no response: it either completes ([None]) or hands
    an error to [next] ([Some message]). [uid] is the ObjectId a new
    document receives, [now] the value of [Date.now()]. *)
Definition createUser (reqUser : option GithubUser) (uid : string) (now : Z)
    (users : gmap string Doc) : option string * gmap string Doc :=
  match reqUser with
  | None => (Some "TypeError: Cannot read properties of undefined", users)
  | Some githubUser =>
      match gh_emails githubUser with
      | [] => (Some "TypeError: Cannot read properties of undefined", users)
      | email :: _ =>
          let email := JStr (castEmail email) in
          if findOne "email" email users then (None, users)
          else
            let doc : Doc :=
              {[ "githubId" := JStr (gh_id githubUser);
                 "email" := email;
                 "displayName" := JStr (castName (gh_displayName githubUser));
                 "isAdmin" := JBool false;
                 "createdAt" := JNum now;
                 "updatedAt" := JNum now ]} in
            match save uid doc users with
            | inl error => (Some error, users)
            | inr users' => (None, users')
            end
      end
  end.
End CreateUser.

(** The condition both [getUserById] and [updateUser] spell out:
    [req.user.role !== "admin" && user._id.toString() !== req.user.id]. *)
Definition notAdminNorOwner (p : Principal) (ownerId : string) : bool :=
  bool_decide (role p ≠ "admin") && bool_decide (ownerId ≠ id p).

Definition noSession : string := "Not authorized, no user session found.".
Definition viewDenied : string := "Not authorized to view this user profile".
Definition updateDenied : string := "Not authorized to update this user profile".
Definition roleDenied : string := "Not authorized to change user role".
Definition lastAdmin : string := "Cannot delete the last admin user.".
Definition typeError : string :=
  "TypeError: Cannot read properties of undefined (reading 'id')".

(** [!req.user || !req.user.id] *)
Definition noUserSession (reqUser : option Principal) : bool :=
  match reqUser with
  | None => true
  | Some p => bool_decide (id p = "")
  end.

Definition getUserById (reqUser : option Principal) (paramId : string)
    (users : gmap string Doc) : Response Doc :=
  let lookup : string + (string * option Doc) :=
    if bool_decide (paramId = "me") then
      match reqUser with
      | Some p =>
          if noUserSession reqUser then inl noSession
          else inr (id p, users !! id p)
      | None => inl noSession
      end
    else inr (paramId, users !! paramId) in
  match lookup with
  | inl e => JsonError 401 e
  | inr (_, None) => JsonError 404 "User not found"
  | inr (_id, Some user) =>
      match reqUser with
      | Some p =>
          if notAdminNorOwner p _id then JsonError 403 viewDenied
          else Json 200 user
      | None => Json 200 user
      end
  end.

Definition allowedUpdates : list string :=
  ["displayName"; "profilePicture"; "phoneNumber"; "address"].

(** [user.k] on a document loaded through the model: only the declared
    paths are properties of the document, whatever the stored document
    holds besides. *)
Definition getPath (user : Doc) (k : string) : option JsVal :=
  if bool_decide (k ∈ schemaPaths) then user !! k else None.

(** [req.body.role && req.user.role !== "admin" && req.body.role !== user.role] *)
Definition changesRole (p : Principal) (body user : Doc) : bool :=
  match body !! "role" with
  | Some r =>
      truthy r && bool_decide (role p ≠ "admin")
      && bool_decide (Some r ≠ getPath user "role")
  | None => false
  end.

(** The object [updates] that is handed to [findByIdAndUpdate]. *)
Definition buildUpdates (p : Principal) (body : Doc) (now : Z) : Doc :=
  let updates : Doc :=
    if bool_decide (role p ≠ "admin")
    then filter (λ kv, bool_decide (kv.1 ∈ allowedUpdates)) body
    else delete "googleId" body in
  <["updatedAt" := JNum now]> updates.

(** A key of an update document that is the plain name of a field: not an
    operator ([$set], [$inc], ...), not a dotted path, and not one of the
    paths Mongoose adds to every schema. *)
Definition plainKey (k : string) : bool :=
  negb (bool_decide (k = ""))
  && negb (String.prefix "$" k)
  && negb (bool_decide (is_Some (String.index 0 "." k)))
  && negb (bool_decide (k ∈ ["_id"; "__v"])).

Definition plainUpdate (updates : Doc) : bool :=
  bool_decide (map_Forall (λ k _, plainKey k = true) updates).

Definition writeRefused : string := "CastError or ValidationError".

Section Schema.
(** What the schema type of a declared path makes of a value that is set
    on it: the cast value, with the setters of the path applied, or
    nothing when the cast or a validator of the path refuses the value. *)
Variable castPath : string → JsVal → option JsVal.

(** What [findByIdAndUpdate] makes of an update document that has other
    keys than plain field names: the document that [user], stored under
    the id, becomes, or the message of the error raised. *)
Variable applyOperators :
  Doc → string → Doc → gmap string Doc → string + Doc.

(** Strict mode keeps the keys that are declared paths; each of them must
    pass its cast. *)
Definition castable (updates : Doc) : Prop :=
  map_Forall (λ k v, is_Some (castPath k v))
    (filter (λ kv, kv.1 ∈ schemaPaths) updates).

Definition castUpdate (updates : Doc) : option Doc :=
  if bool_decide (castable updates)
  then Some (map_imap castPath (filter (λ kv, kv.1 ∈ schemaPaths) updates))
  else None.

(** A unique path that the update sets to a value another document has. *)
Definition conflicts (uid : string) (set : Doc) (users : gmap string Doc)
    : bool :=
  duplicateKey set (delete uid users).

(** [User.findByIdAndUpdate(id, updates, { new: true, runValidators: true })]
    on a stored id. Plain keys are set: those that the schema does not
    declare are dropped, the others are cast and validated, and the unique
    indexes are kept. The answer is the updated document, or the message
    of the error, in which case nothing is written. *)
Definition findByIdAndUpdate (uid : string) (updates : Doc)
    (users : gmap string Doc) : string + (option Doc * gmap string Doc) :=
  match users !! uid with
  | None => inr (None, users)
  | Some user =>
      if plainUpdate updates then
        match castUpdate updates with
        | None => inl writeRefused
        | Some set =>
            if conflicts uid set users then inl duplicateKeyError
            else inr (Some (set ∪ user), <[uid := set ∪ user]> users)
        end
      else
        match applyOperators updates uid user users with
        | inl error => inl error
        | inr user' => inr (Some user', <[uid := user']> users)
        end
  end.

Definition updateUser (reqUser : option Principal) (paramId : string)
    (body : Doc) (now : Z) (users : gmap string Doc)
    : Response (option Doc) * gmap string Doc :=
  let targetId : option string :=
    if bool_decide (paramId = "me") then id <$> reqUser else Some paramId in
  match targetId, reqUser with
  | None, _ => (Next None typeError, users)
  | Some _, None => (JsonError 401 noSession, users)
  | Some targetId, Some p =>
      if noUserSession reqUser then (JsonError 401 noSession, users)
      else
        match users !! targetId with
        | None => (JsonError 404 "User not found", users)
        | Some user =>
            if notAdminNorOwner p targetId then
              (JsonError 403 updateDenied, users)
            else if changesRole p body user then
              (JsonError 403 roleDenied, users)
            else
              let updates := buildUpdates p body now in
              match findByIdAndUpdate targetId updates users with
              | inl error => (Next None error, users)
              | inr (user', users') => (Json 200 user', users')
              end
        end
  end.
End Schema.

Definition deleteUser (reqUser : option Principal) (paramId : string)
    (users : gmap string Doc) : Response string * gmap string Doc :=
  match users !! paramId with
  | None => (JsonError 404 "User not found", users)
  | Some user =>
      match reqUser with
      | None => (Next None typeError, users)
      | Some p =>
          let deleteOne : Response string * gmap string Doc :=
            (Json 200 "User deleted successfully", delete paramId users) in
          if bool_decide (paramId = id p) && bool_decide (role p = "admin")
          then
            let adminCount := countDocuments "role" (JStr "admin") users in
            if (adminCount <=? 1)%nat then (JsonError 400 lastAdmin, users)
            else deleteOne
          else deleteOne
      end
  end.

End Users.

(** ** Sample data

    The catalog, the order and the accounts of the scenarios of the
    specification, with amounts as integers. *)

Module Sample.
Import Orders Users.

Definition roses : gmap string (Flower Z) :=
  {[ "p1" := {| name := "Red Rose"; price := 10%Z |};
     "p2" := {| name := "White Lily"; price := 15%Z |} ]}.

Definition pendingOrder : Order Z :=
  newOrder "u1" [ {| flower := "p1"; quantity := 2%Z; priceAtPurchase := 10%Z |} ]
    20%Z "1 Garden Lane" 1000%Z.

Definition account (email name role : string) : Doc :=
  {[ "email" := JStr email; "displayName" := JStr name;
     "role" := JStr role; "updatedAt" := JNum 1000 ]}.

Definition alice : Doc := account "alice@example.com" "Alice" "customer".
Definition bob : Doc := account "bob@example.com" "Bob" "customer".
Definition root : Doc := account "root@example.com" "Root" "admin".
Definition rosa : Doc := account "rosa@example.com" "Rosa" "admin".

(** One admin among the accounts, and two. *)
Definition accounts : gmap string Doc :=
  {[ "u1" := alice; "u2" := bob; "a1" := root ]}.

Definition accounts2 : gmap string Doc := <["a2" := rosa]> accounts.

Definition customer1 : Principal := {| id := "u1"; role := "customer" |}.
Definition admin1 : Principal := {| id := "a1"; role := "admin" |}.

Definition octocat : GithubUser :=
  {| gh_id := "583231"; gh_displayName := "The Octocat";
     gh_emails := ["octocat@github.com"] |}.

(** A stand-in for the casts of the schema in the runs below: a value of
    the declared type of the path is taken as it is (the strings of the
    runs are trimmed, the e-mails in lower case), an empty [email] and
    every other value are refused. *)
Definition sampleCast (path : string) (v : JsVal) : option JsVal :=
  match v with
  | JStr s =>
      if bool_decide (path = "email") && bool_decide (s = "") then None
      else if bool_decide
                (path ∈ ["googleId"; "githubId"; "email"; "displayName";
                         "profilePicture"])
           then Some v else None
  | JBool _ => if bool_decide (path = "isAdmin") then Some v else None
  | JNum _ =>
      if bool_decide (path ∈ ["createdAt"; "updatedAt"]) then Some v else None
  | _ => None
  end.

(** The runs below have patches of plain field names only, for which
    [findByIdAndUpdate] does not consult this one. *)
Definition sampleOperators (updates : Doc) (uid : string) (user : Doc)
    (users : gmap string Doc) : string + Doc :=
  inl "MongoServerError".

(** [updateUser] with these two. *)
Definition updateUser' :=
  updateUser sampleCast sampleOperators.

End Sample.

(** ** Orders: reading and deleting

    The remaining handlers of [controllers/ordersController.js]. The two
    readers populate what they return: [user] with the [email] and
    [displayName] of the account it refers to, [items.flower] with the
    [name] and [price] of the flower it refers to, each [null] when the
    reference no longer resolves. *)

(** A listing body: [{ success: true, count, data }]. *)
Record Listing (A : Type) : Type := { count : nat; data : list A }.
Arguments count {A} _.
Arguments data {A} _.

Module OrderLookup.
Import Orders.

Section WithNumbers.
Context {num : Type} `{JsNumber num}.

Record PopulatedItem : Type := {
  p_flower : option (string * Flower num);
  p_quantity : num;
  p_priceAtPurchase : num;
}.

Record PopulatedOrder : Type := {
  p_id : string;
  p_user : option (string * Users.Doc);
  p_items : list PopulatedItem;
  p_totalAmount : num;
  p_shippingAddress : string;
  p_status : string;
  p_createdAt : Z;
  p_updatedAt : Z;
}.

(** [.populate('user', 'email displayName')] *)
Definition populateUser (users : gmap string Users.Doc) (uid : string)
    : option (string * Users.Doc) :=
  (λ doc, (uid, filter (λ kv, kv.1 ∈ ["email"; "displayName"]) doc))
    <$> users !! uid.

(** [.populate('items.flower', 'name price')] *)
Definition populateItem (catalog : gmap string (Flower num)) (li : OrderItem num)
    : PopulatedItem :=
  {| p_flower := (λ fl, (flower li, fl)) <$> catalog !! flower li;
     p_quantity := quantity li;
     p_priceAtPurchase := priceAtPurchase li |}.

Definition populateOrder (users : gmap string Users.Doc)
    (catalog : gmap string (Flower num)) (id : string) (o : Order num)
    : PopulatedOrder :=
  {| p_id := id;
     p_user := populateUser users (user o);
     p_items := populateItem catalog <$> items o;
     p_totalAmount := totalAmount o;
     p_shippingAddress := shippingAddress o;
     p_status := status o;
     p_createdAt := createdAt o;
     p_updatedAt := updatedAt o |}.

(** [Order.find(query)], where [query] is [{}] or [{ user: userId }]. *)
Definition findOrders (query : option string) (orders : gmap string (Order num))
    : list (string * Order num) :=
  map_to_list
    (match query with
     | Some u => filter (λ kv, user kv.2 = u) orders
     | None => orders
     end).

(** [getOrders]: [userId] is [req.query.userId]; the filter is set only
    when it is truthy. *)
Definition getOrders (userId : option string)
    (users : gmap string Users.Doc) (catalog : gmap string (Flower num))
    (orders : gmap string (Order num)) : Response (Listing PopulatedOrder) :=
  let query :=
    match userId with
    | Some u => if bool_decide (u = "") then None else Some u
    | None => None
    end in
  let orders :=
    (λ kv, populateOrder users catalog kv.1 kv.2) <$> findOrders query orders in
  Json 200 {| count := length orders; data := orders |}.

Definition getOrderById (id : string)
    (users : gmap string Users.Doc) (catalog : gmap string (Flower num))
    (orders : gmap string (Order num)) : Response PopulatedOrder :=
  match orders !! id with
  | None => Next (Some 404) ("Order not found with ID " +:+ id)
  | Some order => Json 200 (populateOrder users catalog id order)
  end.

(** [deleteOrder], around [Order.findByIdAndDelete]. *)
Definition deleteOrder (id : string) (orders : gmap string (Order num))
    : Response string * gmap string (Order num) :=
  match orders !! id with
  | None => (Next (Some 404) ("Order not found with ID " +:+ id), orders)
  | Some deleted => (Json 200 "Order deleted", delete id orders)
  end.

(** The invariant of a stored order: its total is the sum of its lines. *)
Definition totalsConsistent (orders : gmap string (Order num)) : Prop :=
  ∀ id o, orders !! id = Some o → totalAmount o = sumLines (items o).

End WithNumbers.

Arguments PopulatedItem num : clear implicits.
Arguments PopulatedOrder num : clear implicits.

End OrderLookup.

(** ** Users: listing, and what the collection keeps *)

Module UserLookup.
Import Users.

(** [getUsers]: [User.find()] and its length. The handler reads nothing of
    the request. *)
Definition getUsers (users : gmap string Doc)
    : Response (Listing (string * Doc)) :=
  let users := map_to_list users in
  Json 200 {| count := length users; data := users |}.

(** The field [k] of the account [uid], if there is such an account and it
    has the field. *)
Definition fieldOf (users : gmap string Doc) (uid k : string)
    : option JsVal :=
  users !! uid ≫= (λ doc, doc !! k).

(** What a [unique] index on [path] guarantees: no two accounts hold the
    same value there. *)
Definition uniqueIndex (path : string) (users : gmap string Doc) : Prop :=
  ∀ uid1 uid2 doc1 doc2 v,
    users !! uid1 = Some doc1 → users !! uid2 = Some doc2 →
    doc1 !! path = Some v → doc2 !! path = Some v → uid1 = uid2.

End UserLookup.

(** ** Wishlists

    [controllers/wishlistController.js]. The index on [user] of the
    wishlist collection is unique (the tests of the model have a second
    wishlist for the same user refused with E11000), so the collection is
    a finite map from the id of a user to the wishlist of that user. Flower
    documents are read for two things only, whether one exists and what
    [populate] selects of it ([name price imageUrl]); their type and the
    selection are parameters. *)

Module Wishlists.
Import Users.

Record Wishlist : Type := {
  w_id : string;
  w_user : string;
  w_flowers : list string;
  w_createdAt : Z;
  w_updatedAt : Z;
}.

(** [data]: a wishlist as it is stored, or as [populate] returns it, with
    each flower id that resolves replaced by the selected fields of the
    flower; an id that does not resolve is left out of a populated array. *)
Inductive WishData (V : Type) : Type :=
| Stored (w : Wishlist)
| Populated (w : Wishlist) (flowers : list (string * V)).

Arguments Stored {V} w.
Arguments Populated {V} w flowers.

(** A success body: [{ success: true, message, data }]. *)
Record WishBody (V : Type) : Type := {
  message : option string;
  wishlist : WishData V;
}.
Arguments message {V} _.
Arguments wishlist {V} _.

Section WithFlowers.
Context {F V : Type}.
Variable select : F → V.

Implicit Types (catalog : gmap string F) (wishlists : gmap string Wishlist).

(** [.populate({ path: 'flowers', select: 'name price imageUrl' })] *)
Definition populate catalog (w : Wishlist) : WishData V :=
  Populated w (omap (λ f, (λ fl, (f, select fl)) <$> catalog !! f) (w_flowers w)).

(** [Wishlist.create({ user, flowers })]; [wid] is the new ObjectId and
    [now] the value of [Date.now()]. *)
Definition create (wid user : string) (flowers : list string) (now : Z)
    : Wishlist :=
  {| w_id := wid; w_user := user; w_flowers := flowers;
     w_createdAt := now; w_updatedAt := now |}.

(** [wishlist.flowers = flowers; wishlist.updatedAt = Date.now()] *)
Definition withFlowers (w : Wishlist) (flowers : list string) (now : Z)
    : Wishlist :=
  {| w_id := w_id w; w_user := w_user w; w_flowers := flowers;
     w_createdAt := w_createdAt w; w_updatedAt := now |}.

Definition getWishlist (reqUser : option Principal) catalog
    (wid : string) (now : Z) wishlists
    : Response (WishBody V) * gmap string Wishlist :=
  match reqUser with
  | None => (Next None typeError, wishlists)
  | Some p =>
      match wishlists !! id p with
      | None =>
          let wishlist := create wid (id p) [] now in
          (Json 201 {| message := Some "New wishlist created for user";
                       wishlist := Stored wishlist |},
           <[id p := wishlist]> wishlists)
      | Some wishlist =>
          (Json 200 {| message := None; wishlist := populate catalog wishlist |},
           wishlists)
      end
  end.

Definition addFlowerToWishlist (reqUser : option Principal)
    (flowerId : string) catalog (wid : string) (now : Z) wishlists
    : Response (WishBody V) * gmap string Wishlist :=
  match catalog !! flowerId with
  | None => (JsonError 404 "Flower not found", wishlists)
  | Some flower =>
      match reqUser with
      | None => (Next None typeError, wishlists)
      | Some p =>
          let added (wishlist : Wishlist) :=
            (Json 200 {| message := Some "Flower added to wishlist";
                         wishlist := populate catalog wishlist |},
             <[id p := wishlist]> wishlists) in
          match wishlists !! id p with
          | None => added (create wid (id p) [flowerId] now)
          | Some wishlist =>
              if bool_decide (flowerId ∈ w_flowers wishlist) then
                (JsonError 400 "Flower already in wishlist", wishlists)
              else
                added (withFlowers wishlist (w_flowers wishlist ++ [flowerId]) now)
          end
      end
  end.

Definition removeFlowerFromWishlist (reqUser : option Principal)
    (flowerId : string) catalog (now : Z) wishlists
    : Response (WishBody V) * gmap string Wishlist :=
  match reqUser with
  | None => (Next None typeError, wishlists)
  | Some p =>
      match wishlists !! id p with
      | None => (JsonError 404 "Wishlist not found for this user", wishlists)
      | Some wishlist =>
          let initialLength := length (w_flowers wishlist) in
          let flowers := filter (λ id, id ≠ flowerId) (w_flowers wishlist) in
          if bool_decide (length flowers = initialLength) then
            (JsonError 404 "Flower not found in wishlist", wishlists)
          else
            let wishlist := withFlowers wishlist flowers now in
            (Json 200 {| message := Some "Flower removed from wishlist";
                         wishlist := populate catalog wishlist |},
             <[id p := wishlist]> wishlists)
      end
  end.

Definition clearWishlist (reqUser : option Principal) (now : Z) wishlists
    : Response (WishBody V) * gmap string Wishlist :=
  match reqUser with
  | None => (Next None typeError, wishlists)
  | Some p =>
      match wishlists !! id p with
      | None => (JsonError 404 "Wishlist not found for this user", wishlists)
      | Some wishlist =>
          let wishlist := withFlowers wishlist [] now in
          (Json 200 {| message := Some "Wishlist cleared successfully";
                       wishlist := Stored wishlist |},
           <[id p := wishlist]> wishlists)
      end
  end.

End WithFlowers.

(** The flowers of the wishlist of [user], if there is one. *)
Definition flowersOf (wishlists : gmap string Wishlist) (user : string)
    : option (list string) :=
  w_flowers <$> wishlists !! user.

(** No wishlist lists a flower twice. *)
Definition noDuplicates (wishlists : gmap string Wishlist) : Prop :=
  ∀ user w, wishlists !! user = Some w → NoDup (w_flowers w).

(** An outcome [r] of a handler run for [reqUser] on [wishlists] that
    wrote nothing unless it answered with a success body, and nothing to
    the wishlist of anybody else. *)
Definition ownWishlistOnly {A} (reqUser : option Principal)
    (wishlists : gmap string Wishlist)
    (r : Response A * gmap string Wishlist) : Prop :=
  (dataOf r.1 = None → r.2 = wishlists)
  ∧ ∀ user, (∀ p, reqUser = Some p → user ≠ id p) →
            r.2 !! user = wishlists !! user.

End Wishlists.

(** ** Categories

    [controllers/categoryController.js], but for [createCategory], whose
    outcome the validators of the missing Category schema decide. The
    bodies of [updateCategoryById] and [deleteCategoryById] are sent with
    [res.json(x)]: the body is [x] itself, the status 200. *)

Module Categories.
Import Users.

(** What [Category.deleteOne] resolves to. *)
Record DeleteResult : Type := { acknowledged : bool; deletedCount : nat }.

Definition getCategories (categories : gmap string Doc)
    : Response (Listing (string * Doc)) :=
  let categories := map_to_list categories in
  Json 200 {| count := length categories; data := categories |}.

Definition getCategoryById (id : string) (categories : gmap string Doc)
    : Response Doc :=
  match categories !! id with
  | None => Next (Some 404) ("Category not found with ID of " +:+ id)
  | Some category => Json 200 category
  end.

Section UpdateCategory.
(** What the missing schema makes of an update: [applyUpdate body id
    category categories] is the document that [category], stored under
    [id], becomes under the update document [body], or the message of the
    error that the cast or a unique index raises. *)
Variable applyUpdate : Doc → string → Doc → gmap string Doc → string + Doc.

(** [Category.findByIdAndUpdate(categoryId, body, { new: true })], then
    [res.json] of what it resolves to, which is [null] when no document
    has the id. *)
Definition updateCategoryById (categoryId : string) (body : Doc)
    (categories : gmap string Doc)
    : Response (option Doc) * gmap string Doc :=
  match categories !! categoryId with
  | None => (Json 200 None, categories)
  | Some category =>
      match applyUpdate body categoryId category categories with
      | inl error => (Next None error, categories)
      | inr updateCategory =>
          (Json 200 (Some updateCategory),
           <[categoryId := updateCategory]> categories)
      end
  end.
End UpdateCategory.

Definition deleteCategoryById (categoryId : string)
    (categories : gmap string Doc)
    : Response DeleteResult * gmap string Doc :=
  let deleteCategory :=
    {| acknowledged := true;
       deletedCount :=
         match categories !! categoryId with Some _ => 1 | None => 0 end |} in
  (Json 200 deleteCategory, delete categoryId categories).

End Categories.

(** ** More sample data *)

Module Scenes.
Import Orders Users Wishlists Sample.

Definition oneOrder : gmap string (Order Z) := {[ "o1" := pendingOrder ]}.

Definition twoRoses : list (ItemInput Z) :=
  [ {| item_flower := "p1"; item_quantity := 2%Z |} ].

(** The catalog after a price change. *)
Definition rosesLater : gmap string (Flower Z) :=
  <["p1" := {| name := "Red Rose"; price := 12%Z |}]> roses.

Definition aliceOnly : gmap string Doc := {[ "u1" := alice ]}.

Definition aliceWishes : Wishlist :=
  {| w_id := "w1"; w_user := "u1"; w_flowers := ["p1"];
     w_createdAt := 1000; w_updatedAt := 1000 |}.

Definition wishes : gmap string Wishlist := {[ "u1" := aliceWishes ]}.

End Scenes.

(** * Properties of the order controller *)

Module OrderProps.
Import Orders Sample.

Section WithNumbers.
Context {num : Type} `{JsNumber num}.

Implicit Types (catalog : gmap string (Flower num)).
Implicit Types (orders : gmap string (Order num)).
Implicit Types (its : list (ItemInput num)) (lines : list (OrderItem num)).

(** Loop invariant: when every remaining flower resolves, the loop runs to
    its end; it appends one snapshot per entry, in order, and adds their
    line totals to the running total, in order. *)
Lemma priceItems_resolved catalog its :
  Forall (resolves catalog) its →
  ∀ (total : num) lines, ∃ new,
    priceItems catalog its total lines
    = inr (fold_left (λ acc li, nadd acc (lineTotal li)) new total,
           lines ++ new)
    ∧ Forall2 (snapshotOf catalog) its new.
Proof.
  induction 1 as [|it its [fl Hfl] _ IH]; intros total lines.
  - exists []. simpl. rewrite app_nil_r. split; [done | constructor].
  - simpl. rewrite Hfl.
    destruct (IH (nadd total (nmul (price fl) (item_quantity it)))
                 (lines ++ [lineOf it (price fl)])) as (new & Hrun & Hnew).
    exists (lineOf it (price fl) :: new). split.
    + etrans; [exact Hrun|]. by rewrite <- app_assoc.
    + constructor; [|done]. repeat split. by rewrite Hfl.
Qed.

(** The loop stops at the first entry whose flower does not resolve and
    reports that flower. *)
Lemma priceItems_unresolved catalog its :
  Exists (λ it, catalog !! item_flower it = None) its →
  ∀ (total : num) lines, ∃ pre it post,
    its = pre ++ it :: post
    ∧ Forall (resolves catalog) pre
    ∧ catalog !! item_flower it = None
    ∧ priceItems catalog its total lines = inl (item_flower it).
Proof.
  induction its as [|it its IH]; intros Hex total lines.
  - by apply Exists_nil in Hex.
  - destruct (catalog !! item_flower it) as [fl|] eqn:Hfl.
    + apply Exists_cons in Hex as [Hex|Hex]; [congruence|].
      destruct (IH Hex (nadd total (nmul (price fl) (item_quantity it)))
                   (lines ++ [lineOf it (price fl)]))
        as (pre & it' & post & -> & Hpre & Hnone & Hrun).
      exists (it :: pre), it', post. simpl. rewrite Hfl.
      repeat split; [|done|exact Hrun].
      constructor; [by unfold resolves; rewrite Hfl|done].
    + exists [], it, its. simpl. by rewrite Hfl.
Qed.

(** C1. When every flower an item list refers to is in the catalog,
    [createOrder] answers 201 with an order, stored under the new id,
    whose line items follow the input entry by entry, each with the
    catalog price of its flower as [priceAtPurchase], and whose
    [totalAmount] is the sum of the line totals, price times quantity,
    added up in that order. *)
Theorem createOrder_snapshot_and_total catalog orders user its addr oid now :
  Forall (resolves catalog) its →
  ∃ o, createOrder catalog orders user its addr oid now
       = (Json 201 o, <[oid := o]> orders)
     ∧ Forall2 (snapshotOf catalog) its (items o)
     ∧ totalAmount o = sumLines (items o).
Proof.
  intros Hres. unfold createOrder.
  destruct (priceItems_resolved catalog its Hres nzero [])
    as (new & -> & Hsnap).
  eexists. split; [reflexivity|]. by split.
Qed.

(** C3. When some entry refers to a flower that is not in the catalog,
    [createOrder] hands [next] the 400 error naming the first such flower
    and leaves the order collection as it was. *)
Theorem createOrder_unknown_flower catalog orders user its addr oid now :
  Exists (λ it, catalog !! item_flower it = None) its →
  ∃ pre it post,
    its = pre ++ it :: post
    ∧ Forall (resolves catalog) pre
    ∧ catalog !! item_flower it = None
    ∧ createOrder catalog orders user its addr oid now
      = (Next (Some 400) ("Flower not found with ID " +:+ item_flower it),
         orders).
Proof.
  intros Hex. unfold createOrder.
  destruct (priceItems_unresolved catalog its Hex nzero [])
    as (pre & it & post & Hits & Hpre & Hnone & ->).
  by exists pre, it, post.
Qed.


(** C5. For a stored order: a status of the enumeration is accepted, the
    answer is 200 with the updated order, which is what the collection
    now holds under that id and which differs from the stored one in
    [status] and [updatedAt] only; any other status is answered with
    400 "Invalid status" and the collection is left as it was. *)
Theorem updateOrderStatus_frame orders id s now o :
  orders !! id = Some o →
  (s ∈ validStatuses →
     ∃ o', updateOrderStatus orders id s now = (Json 200 o', <[id := o']> orders)
         ∧ status o' = s ∧ updatedAt o' = now
         ∧ user o' = user o ∧ items o' = items o
         ∧ totalAmount o' = totalAmount o
         ∧ shippingAddress o' = shippingAddress o
         ∧ createdAt o' = createdAt o)
  ∧ (s ∉ validStatuses →
     updateOrderStatus orders id s now = (JsonError 400 "Invalid status", orders)).
Proof.
  intros Ho. unfold updateOrderStatus, findByIdAndUpdate. split; intros Hs.
  - rewrite bool_decide_eq_true_2 by done. rewrite Ho.
    exists (setStatus s now o). by repeat split.
  - by rewrite bool_decide_eq_false_2.
Qed.

End WithNumbers.

(** ** The scenarios of the specification, over integer amounts *)

Example createOrder_scenario :
  createOrder roses ∅ "u1" [ {| item_flower := "p1"; item_quantity := 2%Z |} ]
    "1 Garden Lane" "o1" 1000%Z
  = (Json 201 pendingOrder, {[ "o1" := pendingOrder ]}).
Proof. reflexivity. Qed.

Example createOrder_two_lines :
  totalAmount <$> dataOf (createOrder roses ∅ "u1"
      [ {| item_flower := "p2"; item_quantity := 3%Z |};
        {| item_flower := "p1"; item_quantity := 2%Z |} ] "" "o1" 0%Z).1
  = Some 65%Z.
Proof. reflexivity. Qed.

(** C1 at the scenario of the specification: two red roses at 10. *)
Lemma createOrder_snapshot_and_total_witness :
  Forall (resolves roses) [ {| item_flower := "p1"; item_quantity := 2%Z |} ]
  ∧ ∃ o, createOrder roses ∅ "u1"
           [ {| item_flower := "p1"; item_quantity := 2%Z |} ]
           "1 Garden Lane" "o1" 1000%Z
         = (Json 201 o, <["o1" := o]> ∅)
       ∧ Forall2 (snapshotOf roses)
           [ {| item_flower := "p1"; item_quantity := 2%Z |} ] (items o)
       ∧ totalAmount o = sumLines (items o).
Proof.
  assert (Forall (resolves roses)
            [ {| item_flower := "p1"; item_quantity := 2%Z |} ]) as Hres.
  { constructor; [|constructor]. eexists. vm_compute. reflexivity. }
  split; [exact Hres|].
  exact (createOrder_snapshot_and_total roses ∅ "u1" _ "1 Garden Lane" "o1"
           1000%Z Hres).
Defined.

(** C3 with an unknown flower between two known ones. *)
Lemma createOrder_unknown_flower_witness :
  Exists (λ it, roses !! item_flower it = None)
    [ {| item_flower := "p1"; item_quantity := 1%Z |};
      {| item_flower := "p9"; item_quantity := 1%Z |};
      {| item_flower := "p2"; item_quantity := 1%Z |} ]
  ∧ ∃ pre it post,
      [ {| item_flower := "p1"; item_quantity := 1%Z |};
        {| item_flower := "p9"; item_quantity := 1%Z |};
        {| item_flower := "p2"; item_quantity := 1%Z |} ] = pre ++ it :: post
      ∧ Forall (resolves roses) pre
      ∧ roses !! item_flower it = None
      ∧ createOrder roses ∅ "u1"
          [ {| item_flower := "p1"; item_quantity := 1%Z |};
            {| item_flower := "p9"; item_quantity := 1%Z |};
            {| item_flower := "p2"; item_quantity := 1%Z |} ]
          "1 Garden Lane" "o1" 1000%Z
        = (Next (Some 400) ("Flower not found with ID " +:+ item_flower it), ∅).
Proof.
  assert (Exists (λ it : ItemInput Z, roses !! item_flower it = None)
            [ {| item_flower := "p1"; item_quantity := 1%Z |};
              {| item_flower := "p9"; item_quantity := 1%Z |};
              {| item_flower := "p2"; item_quantity := 1%Z |} ]) as Hex.
  { apply Exists_cons_tl, Exists_cons_hd. vm_compute. reflexivity. }
  split; [exact Hex|].
  exact (createOrder_unknown_flower roses ∅ "u1" _ "1 Garden Lane" "o1"
           1000%Z Hex).
Defined.


(** C5 on the pending order of the scenario: "shipped" is accepted,
    "refunded" is not. *)
Lemma updateOrderStatus_frame_witness :
  ({[ "o1" := pendingOrder ]} : gmap string (Order Z)) !! "o1" = Some pendingOrder
  ∧ (∃ o', updateOrderStatus {[ "o1" := pendingOrder ]} "o1" "shipped" 2000%Z
           = (Json 200 o', <["o1" := o']> {[ "o1" := pendingOrder ]})
         ∧ status o' = "shipped" ∧ updatedAt o' = 2000%Z
         ∧ user o' = user pendingOrder ∧ items o' = items pendingOrder
         ∧ totalAmount o' = totalAmount pendingOrder
         ∧ shippingAddress o' = shippingAddress pendingOrder
         ∧ createdAt o' = createdAt pendingOrder)
  ∧ updateOrderStatus {[ "o1" := pendingOrder ]} "o1" "refunded" 2000%Z
    = (JsonError 400 "Invalid status", {[ "o1" := pendingOrder ]}).
Proof.
  assert (({[ "o1" := pendingOrder ]} : gmap string (Order Z)) !! "o1"
          = Some pendingOrder) as Ho by (vm_compute; reflexivity).
  split; [exact Ho|]. split.
  - apply (proj1 (updateOrderStatus_frame _ "o1" "shipped" 2000%Z _ Ho)).
    apply (bool_decide_unpack _). vm_compute. exact I.
  - apply (proj2 (updateOrderStatus_frame _ "o1" "refunded" 2000%Z _ Ho)).
    apply (bool_decide_eq_false_1 _). vm_compute. reflexivity.
Defined.

Example updateOrderStatus_scenario :
  updateOrderStatus {[ "o1" := pendingOrder ]} "o1" "shipped" 2000%Z
  = (Json 200 (setStatus "shipped" 2000%Z pendingOrder),
     {[ "o1" := setStatus "shipped" 2000%Z pendingOrder ]}).
Proof. reflexivity. Qed.

(** No transition is refused: a delivered order goes back to pending. *)
Example updateOrderStatus_backwards :
  status <$> dataOf (updateOrderStatus
      {[ "o1" := setStatus "delivered" 1500%Z pendingOrder ]}
      "o1" "pending" 2000%Z).1
  = Some "pending".
Proof. reflexivity. Qed.

Example updateOrderStatus_missing :
  updateOrderStatus (∅ : gmap string (Order Z)) "o1" "shipped" 2000%Z
  = (Next (Some 404) "Order not found with ID o1", ∅).
Proof. reflexivity. Qed.

End OrderProps.

(** * Properties of the user controller *)

Module UserProps.
Import Users Sample.

Implicit Types (users : gmap string Doc) (user body : Doc) (p : Principal).

(** ** Queries *)

Lemma findOne_true field v users uid user :
  users !! uid = Some user → user !! field = Some v →
  findOne field v users = true.
Proof.
  intros Hu Hf. unfold findOne, find.
  rewrite bool_decide_eq_false_2; [done|]. intros Hempty.
  assert (filter (λ kv : string * Doc, kv.2 !! field = Some v) users !! uid
          = Some user) as Hin by by apply map_lookup_filter_Some.
  by rewrite Hempty, lookup_empty in Hin.
Qed.

(** ** [createUser] *)

Section CreateUser.
Variable castEmail : string → string.
Variable castName : string → string.

(** An account with the e-mail of the login exists: nothing is written. *)
Lemma createUser_existing g email rest uid now users :
  gh_emails g = email :: rest →
  findOne "email" (JStr (castEmail email)) users = true →
  createUser castEmail castName (Some g) uid now users = (None, users).
Proof. intros Hmail Hex. unfold createUser. by rewrite Hmail, Hex. Qed.

(** The insert [createUser] attempts is refused or not by the unique
    paths alone, whatever the clock says. *)
Lemma createUser_duplicateKey g email now users :
  duplicateKey
    {[ "githubId" := JStr (gh_id g);
       "email" := JStr (castEmail email);
       "displayName" := JStr (castName (gh_displayName g));
       "isAdmin" := JBool false;
       "createdAt" := JNum now;
       "updatedAt" := JNum now ]} users
  = findOne "githubId" (JStr (gh_id g)) users
    || findOne "email" (JStr (castEmail email)) users.
Proof.
  unfold duplicateKey, uniquePaths. cbn [existsb].
  simplify_map_eq. by rewrite orb_false_r.
Qed.

(** The document [createUser] builds fails validation exactly when the
    cast e-mail is empty. *)
Lemma createUser_missingRequired g email now :
  missingRequired
    {[ "githubId" := JStr (gh_id g);
       "email" := JStr (castEmail email);
       "displayName" := JStr (castName (gh_displayName g));
       "isAdmin" := JBool false;
       "createdAt" := JNum now;
       "updatedAt" := JNum now ]}
  = bool_decide (castEmail email = "").
Proof.
  unfold missingRequired, requiredPaths. cbn [existsb].
  simplify_map_eq. by rewrite orb_false_r.
Qed.

(** What becomes of the insert of [createUser]. *)
Lemma createUser_save g email uid now users :
  save uid
    {[ "githubId" := JStr (gh_id g);
       "email" := JStr (castEmail email);
       "displayName" := JStr (castName (gh_displayName g));
       "isAdmin" := JBool false;
       "createdAt" := JNum now;
       "updatedAt" := JNum now ]} users
  = if bool_decide (castEmail email = "") then inl validationError
    else if findOne "githubId" (JStr (gh_id g)) users
            || findOne "email" (JStr (castEmail email)) users
         then inl duplicateKeyError
         else inr (<[uid :=
                      {[ "githubId" := JStr (gh_id g);
                         "email" := JStr (castEmail email);
                         "displayName" := JStr (castName (gh_displayName g));
                         "isAdmin" := JBool false;
                         "createdAt" := JNum now;
                         "updatedAt" := JNum now ]}]> users).
Proof.
  unfold save. by rewrite createUser_missingRequired, createUser_duplicateKey.
Qed.

(** Whatever [createUser] did, a second run on what it left writes
    nothing. *)
Lemma createUser_again reqUser uid1 now1 uid2 now2 users :
  (createUser castEmail castName reqUser uid2 now2
     (createUser castEmail castName reqUser uid1 now1 users).2).2
  = (createUser castEmail castName reqUser uid1 now1 users).2.
Proof.
  destruct reqUser as [g|]; [|done].
  destruct (gh_emails g) as [|email rest] eqn:Hmail;
    [by unfold createUser; rewrite Hmail|].
  destruct (findOne "email" (JStr (castEmail email)) users) eqn:Hex.
  { rewrite (createUser_existing g email rest uid1) by done. cbn [snd].
    by rewrite (createUser_existing g email rest uid2). }
  assert (∀ uid now,
            createUser castEmail castName (Some g) uid now users
            = if bool_decide (castEmail email = "")
              then (Some validationError, users)
              else if findOne "githubId" (JStr (gh_id g)) users
                   then (Some duplicateKeyError, users)
                   else (None,
                         <[uid :=
                             {[ "githubId" := JStr (gh_id g);
                                "email" := JStr (castEmail email);
                                "displayName" := JStr (castName (gh_displayName g));
                                "isAdmin" := JBool false;
                                "createdAt" := JNum now;
                                "updatedAt" := JNum now ]}]> users)) as Hrun.
  { intros uid now. unfold createUser.
    rewrite Hmail, Hex, createUser_save, Hex, orb_false_r.
    case_bool_decide; [done|]. by destruct (findOne "githubId" _ users). }
  rewrite (Hrun uid1 now1).
  destruct (bool_decide (castEmail email = "")) eqn:Hempty; cbn [snd].
  { by rewrite Hrun. }
  destruct (findOne "githubId" (JStr (gh_id g)) users) eqn:Hgh; cbn [snd].
  { by rewrite Hrun. }
  rewrite (createUser_existing g email rest); [done|done|].
  eapply findOne_true; [apply lookup_insert_eq|].
  by rewrite lookup_insert_ne, lookup_insert_eq.
Qed.

(** C9. [createUser] is idempotent on the account collection: running it
    a second time for the same login, with whatever new id and clock,
    leaves the collection as the first run left it; and when an account
    with the e-mail of the login already exists, a run completes without
    an error and writes nothing. *)
Theorem createUser_idempotent reqUser uid1 now1 uid2 now2 users :
  (createUser castEmail castName reqUser uid2 now2
     (createUser castEmail castName reqUser uid1 now1 users).2).2
  = (createUser castEmail castName reqUser uid1 now1 users).2
  ∧ ∀ g email rest,
      reqUser = Some g → gh_emails g = email :: rest →
      findOne "email" (JStr (castEmail email)) users = true →
      createUser castEmail castName reqUser uid1 now1 users = (None, users).
Proof.
  split; [apply createUser_again|].
  intros g email rest -> Hmail Hex. by eapply createUser_existing.
Qed.
End CreateUser.

(** ** The ownership check *)

Lemma notAdminNorOwner_admin p ownerId :
  role p = "admin" → notAdminNorOwner p ownerId = false.
Proof.
  intros Hadmin. unfold notAdminNorOwner.
  by rewrite bool_decide_eq_false_2 by (by intros []).
Qed.

Lemma notAdminNorOwner_owner p : notAdminNorOwner p (id p) = false.
Proof.
  unfold notAdminNorOwner.
  rewrite (bool_decide_eq_false_2 (id p ≠ id p)) by (by intros []).
  apply andb_false_r.
Qed.

Lemma notAdminNorOwner_other p ownerId :
  role p ≠ "admin" → id p ≠ ownerId → notAdminNorOwner p ownerId = true.
Proof.
  intros Hrole Hid. unfold notAdminNorOwner.
  by rewrite !bool_decide_eq_true_2.
Qed.

Lemma noUserSession_some p : id p ≠ "" → noUserSession (Some p) = false.
Proof. intros Hid. by apply bool_decide_eq_false_2. Qed.

Lemma changesRole_admin p body user :
  role p = "admin" → changesRole p body user = false.
Proof.
  intros Hadmin. unfold changesRole. destruct (body !! "role"); [|done].
  rewrite (bool_decide_eq_false_2 (role p ≠ "admin")) by (by intros []).
  by rewrite andb_false_r.
Qed.


(** C10. Without a session, [getUserById] answers 200 with the account for
    every stored id other than the token "me": the ownership check is
    skipped when [req.user] is absent. *)
Theorem getUserById_without_session paramId users user :
  paramId ≠ "me" → users !! paramId = Some user →
  getUserById None paramId users = Json 200 user.
Proof.
  intros Hme Hu. unfold getUserById.
  by rewrite bool_decide_eq_false_2, Hu.
Qed.

(** C7. An admin deleting the account with its own id: with at most one
    admin account in the collection the answer is 400 "Cannot delete the
    last admin user." and nothing is deleted; with two or more the account
    is deleted and the answer is 200. *)
Theorem deleteUser_last_admin p users user :
  role p = "admin" → users !! id p = Some user →
  ((countDocuments "role" (JStr "admin") users ≤ 1)%nat →
     deleteUser (Some p) (id p) users = (JsonError 400 lastAdmin, users))
  ∧ ((2 ≤ countDocuments "role" (JStr "admin") users)%nat →
     deleteUser (Some p) (id p) users
     = (Json 200 "User deleted successfully", delete (id p) users)).
Proof.
  intros Hadmin Hu. unfold deleteUser. rewrite Hu.
  rewrite !bool_decide_eq_true_2 by done. cbn [andb].
  split; intros Hcount.
  - by rewrite (proj2 (Nat.leb_le _ _)).
  - by rewrite (proj2 (Nat.leb_gt _ _)).
Qed.

(** Whoever holds a session and is not an admin passes [deleteUser]: the
    handler has no role check of its own. *)
Lemma deleteUser_non_admin p paramId users user :
  role p ≠ "admin" → users !! paramId = Some user →
  deleteUser (Some p) paramId users
  = (Json 200 "User deleted successfully", delete paramId users).
Proof.
  intros Hrole Hu. unfold deleteUser. rewrite Hu.
  rewrite (bool_decide_eq_false_2 (role p = "admin")) by done.
  by rewrite andb_false_r.
Qed.

(** ** The update document *)

Lemma allowedUpdates_not_updatedAt k : k ∈ allowedUpdates → k ≠ "updatedAt".
Proof.
  intros Hk ->. revert Hk.
  by apply (bool_decide_eq_false_1 ("updatedAt" ∈ allowedUpdates)).
Qed.

Lemma allowedUpdates_plain k : k ∈ allowedUpdates → plainKey k = true.
Proof.
  unfold allowedUpdates. intros Hk.
  repeat (apply elem_of_cons in Hk as [->|Hk]; [by vm_compute|]).
  by apply elem_of_nil in Hk.
Qed.

(** The update document of a caller who is not an admin. *)
Lemma buildUpdates_self p body now k :
  role p ≠ "admin" →
  buildUpdates p body now !! k
  = if decide (k = "updatedAt") then Some (JNum now)
    else if decide (k ∈ allowedUpdates) then body !! k else None.
Proof.
  intros Hrole. unfold buildUpdates. rewrite bool_decide_eq_true_2 by done.
  rewrite lookup_insert.
  destruct (decide ("updatedAt" = k)) as [<-|Hk]; [by rewrite decide_True|].
  rewrite decide_False by done. rewrite map_lookup_filter.
  destruct (decide (k ∈ allowedUpdates)) as [Hin|Hout];
    destruct (body !! k) as [v|]; cbn; try done.
  - by rewrite option_guard_True by by apply bool_decide_pack.
  - by rewrite option_guard_False by (by intros ?%bool_decide_unpack).
Qed.

(** The update document of an admin. *)
Lemma buildUpdates_admin p body now k :
  role p = "admin" →
  buildUpdates p body now !! k
  = if decide (k = "updatedAt") then Some (JNum now)
    else if decide (k = "googleId") then None else body !! k.
Proof.
  intros Hrole. unfold buildUpdates.
  rewrite bool_decide_eq_false_2 by (by intros []).
  rewrite lookup_insert.
  destruct (decide ("updatedAt" = k)) as [<-|Hk]; [by rewrite decide_True|].
  rewrite decide_False by done.
  destruct (decide (k = "googleId")) as [->|Hg].
  - apply lookup_delete_eq.
  - by apply lookup_delete_ne.
Qed.

Lemma plainUpdate_lookup (updates : Doc) :
  plainUpdate updates = true ↔
  ∀ k v, updates !! k = Some v → plainKey k = true.
Proof.
  unfold plainUpdate. rewrite bool_decide_eq_true. apply map_Forall_lookup.
Qed.

Lemma buildUpdates_self_plain p body now :
  role p ≠ "admin" → plainUpdate (buildUpdates p body now) = true.
Proof.
  intros Hrole. apply plainUpdate_lookup. intros k v.
  rewrite buildUpdates_self by done.
  destruct (decide (k = "updatedAt")) as [->|]; [by vm_compute|].
  destruct (decide (k ∈ allowedUpdates)); [|done].
  intros _. by apply allowedUpdates_plain.
Qed.

Lemma buildUpdates_admin_plain p body now :
  role p = "admin" → plainUpdate body = true →
  plainUpdate (buildUpdates p body now) = true.
Proof.
  intros Hrole Hplain. apply plainUpdate_lookup. intros k v.
  rewrite buildUpdates_admin by done.
  destruct (decide (k = "updatedAt")) as [->|]; [by vm_compute|].
  destruct (decide (k = "googleId")); [done|].
  by apply plainUpdate_lookup.
Qed.

(** ** The write *)

Section Schema.
Variable castPath : string → JsVal → option JsVal.
Variable applyOperators :
  Doc → string → Doc → gmap string Doc → string + Doc.

Local Abbreviation updateUser := (updateUser castPath applyOperators).
Local Abbreviation findByIdAndUpdate :=
  (findByIdAndUpdate castPath applyOperators).

Lemma castable_lookup (updates : Doc) :
  castable castPath updates ↔
  ∀ k v, k ∈ schemaPaths → updates !! k = Some v → is_Some (castPath k v).
Proof.
  unfold castable. rewrite map_Forall_lookup. split.
  - intros Hall k v Hk Hv. apply Hall. by apply map_lookup_filter_Some.
  - intros Hall k v [Hv Hk]%map_lookup_filter_Some. by apply Hall.
Qed.

(** What strict mode and the casts leave of an update document. *)
Lemma castUpdate_lookup (updates set : Doc) k :
  castUpdate castPath updates = Some set →
  set !! k
  = if decide (k ∈ schemaPaths) then updates !! k ≫= castPath k else None.
Proof.
  unfold castUpdate. case_bool_decide; [|done]. intros [= <-].
  rewrite map_lookup_imap, map_lookup_filter.
  destruct (updates !! k) as [v|]; cbn; [|by case_decide].
  destruct (decide (k ∈ schemaPaths)).
  - by rewrite option_guard_True.
  - by rewrite option_guard_False.
Qed.



(** An update that sets no unique path cannot run into a unique index. *)
Lemma conflicts_none uid (set : Doc) users :
  (∀ path, path ∈ uniquePaths → set !! path = None) →
  conflicts uid set users = false.
Proof.
  intros Hnone. unfold conflicts, duplicateKey, uniquePaths. cbn [existsb].
  rewrite !Hnone; [done|..]; unfold uniquePaths;
    apply (bool_decide_unpack _); by vm_compute.
Qed.

(** [updateUser] for a principal with an id, once the target id is
    resolved. *)
Lemma updateUser_resolved p paramId body now users :
  id p ≠ "" →
  updateUser (Some p) paramId body now users
  = let targetId := if bool_decide (paramId = "me") then id p else paramId in
    match users !! targetId with
    | None => (JsonError 404 "User not found", users)
    | Some user =>
        if notAdminNorOwner p targetId then (JsonError 403 updateDenied, users)
        else if changesRole p body user then (JsonError 403 roleDenied, users)
        else
          match findByIdAndUpdate targetId (buildUpdates p body now) users with
          | inl error => (Next None error, users)
          | inr (user', users') => (Json 200 user', users')
          end
    end.
Proof.
  intros Hid. unfold Users.updateUser.
  destruct (bool_decide (paramId = "me")); cbn [fmap option_fmap option_map];
    by rewrite noUserSession_some by done.
Qed.

(** The write of a plain update document to a stored account. *)
Lemma findByIdAndUpdate_plain uid (updates : Doc) users user :
  users !! uid = Some user → plainUpdate updates = true →
  findByIdAndUpdate uid updates users
  = match castUpdate castPath updates with
    | None => inl writeRefused
    | Some set =>
        if conflicts uid set users then inl duplicateKeyError
        else inr (Some (set ∪ user), <[uid := set ∪ user]> users)
    end.
Proof. intros Hu Hplain. unfold Users.findByIdAndUpdate. by rewrite Hu, Hplain. Qed.

(** The write of a caller who is not an admin: the casts decide whether
    it goes through, and if it does the document is the stored one with
    the cast values of the update document over it. *)
Lemma findByIdAndUpdate_self p uid body now users user :
  role p ≠ "admin" → users !! uid = Some user →
  findByIdAndUpdate uid (buildUpdates p body now) users
  = match castUpdate castPath (buildUpdates p body now) with
    | None => inl writeRefused
    | Some set => inr (Some (set ∪ user), <[uid := set ∪ user]> users)
    end.
Proof.
  intros Hrole Hu.
  rewrite (findByIdAndUpdate_plain uid _ users user)
    by (done || by apply buildUpdates_self_plain).
  destruct (castUpdate castPath _) as [set|] eqn:Hset; [|done].
  rewrite conflicts_none; [done|]. intros path Hpath.
  rewrite (castUpdate_lookup _ _ _ Hset), buildUpdates_self by done.
  unfold uniquePaths in Hpath.
  repeat (apply elem_of_cons in Hpath as [->|Hpath]; [by vm_compute|]).
  by apply elem_of_nil in Hpath.
Qed.

(** The fields of the document after a write of a caller who is not an
    admin. *)
Lemma self_update_lookup p body now user (set : Doc) k :
  role p ≠ "admin" →
  castUpdate castPath (buildUpdates p body now) = Some set →
  (set ∪ user) !! k
  = if decide (k = "updatedAt") then castPath "updatedAt" (JNum now)
    else if decide (k ∈ ["displayName"; "profilePicture"])
         then match body !! k with
              | Some v => castPath k v
              | None => user !! k
              end
         else user !! k.
Proof.
  intros Hrole Hset.
  assert (castable castPath (buildUpdates p body now)) as Hc.
  { unfold castUpdate in Hset. by case_bool_decide. }
  rewrite castable_lookup in Hc.
  rewrite lookup_union, (castUpdate_lookup _ _ _ Hset), buildUpdates_self
    by done.
  destruct (decide (k = "updatedAt")) as [->|Hupd].
  { rewrite decide_True by (apply (bool_decide_unpack _); by vm_compute).
    cbn. destruct (Hc "updatedAt" (JNum now)) as [d ->].
    - apply (bool_decide_unpack _). by vm_compute.
    - by rewrite buildUpdates_self, decide_True.
    - by destruct (user !! "updatedAt"). }
  destruct (decide (k ∈ ["displayName"; "profilePicture"])) as [Hk|Hk].
  - assert (k ∈ schemaPaths ∧ k ∈ allowedUpdates) as [Hs Ha].
    { repeat (apply elem_of_cons in Hk as [->|Hk];
              [split; apply (bool_decide_unpack _); by vm_compute|]).
      by apply elem_of_nil in Hk. }
    rewrite !decide_True by done.
    destruct (body !! k) as [v|] eqn:Hv; cbn; [|by destruct (user !! k)].
    destruct (Hc k v Hs) as [d ->]; [|by destruct (user !! k)].
    by rewrite buildUpdates_self, decide_False, decide_True.
  - assert (¬ (k ∈ schemaPaths ∧ k ∈ allowedUpdates)) as Hnot.
    { intros [Hs Ha]. apply Hk. unfold allowedUpdates in Ha.
      repeat (apply elem_of_cons in Ha as [->|Ha];
              [first [by apply (bool_decide_unpack _); vm_compute
                     |by exfalso; revert Hs;
                         apply (bool_decide_eq_false_1 _); vm_compute]|]).
      by apply elem_of_nil in Ha. }
    destruct (decide (k ∈ schemaPaths)); [|by destruct (user !! k)].
    destruct (decide (k ∈ allowedUpdates)); [by destruct Hnot|].
    cbn. by destruct (user !! k).
Qed.


(** The two checks of [updateUser] on the read and the write path, for a
    principal that carries an id and an account addressed by its id: an
    admin is never refused by the handler (what remains is an error of the
    write, handed to [next]); a caller who is not an admin passes the
    ownership check on the own account and is refused with 403 on any
    other, where nothing is written. *)
Lemma ownership_check p ownerId body now users user :
  id p ≠ "" → ownerId ≠ "me" → users !! ownerId = Some user →
  (role p = "admin" →
     getUserById (Some p) ownerId users = Json 200 user
     ∧ ((∃ error, updateUser (Some p) ownerId body now users
                  = (Next None error, users))
        ∨ ∃ user', updateUser (Some p) ownerId body now users
                   = (Json 200 (Some user'), <[ownerId := user']> users)))
  ∧ (role p ≠ "admin" → id p = ownerId →
     getUserById (Some p) ownerId users = Json 200 user
     ∧ (updateUser (Some p) ownerId body now users).1
       ≠ JsonError 403 updateDenied)
  ∧ (role p ≠ "admin" → id p ≠ ownerId →
     getUserById (Some p) ownerId users = JsonError 403 viewDenied
     ∧ updateUser (Some p) ownerId body now users
       = (JsonError 403 updateDenied, users)).
Proof.
  intros Hid Hme Hu.
  assert (getUserById (Some p) ownerId users
          = if notAdminNorOwner p ownerId then JsonError 403 viewDenied
            else Json 200 user) as Hget.
  { unfold getUserById. by rewrite bool_decide_eq_false_2, Hu by done. }
  rewrite updateUser_resolved by done. cbn zeta.
  rewrite (bool_decide_eq_false_2 (ownerId = "me")) by done. rewrite Hu, Hget.
  split; [|split].
  - intros Hadmin.
    rewrite notAdminNorOwner_admin, changesRole_admin by done.
    split; [done|]. unfold Users.findByIdAndUpdate. rewrite Hu.
    destruct (plainUpdate _).
    + destruct (castUpdate castPath _); [|by left; eexists].
      destruct (conflicts _ _ _); [by left; eexists|by right; eexists].
    + destruct (applyOperators _ _ _ _); [by left; eexists|by right; eexists].
  - intros Hrole <-. rewrite notAdminNorOwner_owner. split; [done|].
    destruct (changesRole p body user); [done|].
    by destruct (findByIdAndUpdate _ _ _) as [|[]].
  - intros Hrole Hne. by rewrite notAdminNorOwner_other.
Qed.


End Schema.

(** ** Concrete runs *)

Ltac by_eval := vm_compute; first [reflexivity | exact I | discriminate].

Example getUserById_scenario :
  getUserById (Some customer1) "u2" accounts = JsonError 403 viewDenied.
Proof. reflexivity. Qed.

Example getUserById_me :
  getUserById (Some customer1) "me" accounts = Json 200 alice
  ∧ getUserById None "me" accounts = JsonError 401 noSession.
Proof. split; reflexivity. Qed.

Example updateUser_me_without_session :
  updateUser' None "me" ∅ 2000 accounts = (Next None typeError, accounts)
  ∧ updateUser' None "u1" ∅ 2000 accounts
    = (JsonError 401 noSession, accounts).
Proof. split; reflexivity. Qed.

Example updateUser_displayName_only :
  updateUser' (Some customer1) "u1" {[ "displayName" := JStr "Alice B." ]}
    2000 accounts
  = let alice' :=
      <["displayName" := JStr "Alice B."]> (<["updatedAt" := JNum 2000]> alice) in
    (Json 200 (Some alice'), <["u1" := alice']> accounts).
Proof. by_eval. Qed.

(** A value that its path cannot take is an error of the write. *)
Example updateUser_cast_error :
  updateUser' (Some customer1) "u1"
    {[ "displayName" := JObj [("$gt", JStr "")] ]} 2000 accounts
  = (Next None writeRefused, accounts).
Proof. by_eval. Qed.

Example countDocuments_admins :
  countDocuments "role" (JStr "admin") accounts = 1
  ∧ countDocuments "role" (JStr "admin") accounts2 = 2.
Proof. split; by_eval. Qed.

(** C2 at a failing input, the delete action: a customer asks to delete
    the account of another customer. The claim has a non-admin with a
    mismatched id denied with 403 on every action; [deleteUser] answers
    200 and the account is deleted. *)
Theorem deleteUser_other_not_forbidden :
  deleteUser (Some customer1) "u2" accounts
  = (Json 200 "User deleted successfully", {[ "u1" := alice; "a1" := root ]})
  ∧ statusOf (deleteUser (Some customer1) "u2" accounts).1 ≠ Some 403.
Proof. split; by_eval. Qed.

(** The same request on the read and on the write path is answered 403. *)
Example ownership_check_runs :
  getUserById (Some customer1) "u2" accounts = JsonError 403 viewDenied
  ∧ updateUser' (Some customer1) "u2" {[ "displayName" := JStr "Mallory" ]}
      2000 accounts
    = (JsonError 403 updateDenied, accounts)
  ∧ getUserById (Some admin1) "u2" accounts = Json 200 bob.
Proof. repeat split; by_eval. Qed.



Lemma deleteUser_last_admin_witness :
  role admin1 = "admin" ∧ accounts !! id admin1 = Some root
  ∧ accounts2 !! id admin1 = Some root
  ∧ deleteUser (Some admin1) (id admin1) accounts
    = (JsonError 400 lastAdmin, accounts)
  ∧ deleteUser (Some admin1) (id admin1) accounts2
    = (Json 200 "User deleted successfully", delete (id admin1) accounts2).
Proof.
  assert (role admin1 = "admin") as Hrole by by_eval.
  assert (accounts !! id admin1 = Some root) as Hu by by_eval.
  assert (accounts2 !! id admin1 = Some root) as Hu2 by by_eval.
  repeat (split; [assumption|]). split.
  - apply (proj1 (deleteUser_last_admin admin1 accounts root Hrole Hu)).
    vm_compute. constructor.
  - apply (proj2 (deleteUser_last_admin admin1 accounts2 root Hrole Hu2)).
    vm_compute. constructor.
Defined.

(** C8 at a failing input: a customer deletes the only admin account and is
    answered 200. *)
Theorem deleteUser_by_customer_succeeds :
  deleteUser (Some customer1) "a1" accounts
  = (Json 200 "User deleted successfully", {[ "u1" := alice; "u2" := bob ]}).
Proof. by_eval. Qed.

Lemma createUser_idempotent_witness :
  let lower := λ s : string, s in
  (createUser lower lower (Some octocat) "u4" 3000
     (createUser lower lower (Some octocat) "u3" 2000 accounts).2).2
  = (createUser lower lower (Some octocat) "u3" 2000 accounts).2
  ∧ findOne "email" (JStr "octocat@github.com")
      (createUser lower lower (Some octocat) "u3" 2000 accounts).2 = true
  ∧ createUser lower lower (Some octocat) "u4" 3000
      (createUser lower lower (Some octocat) "u3" 2000 accounts).2
    = (None, (createUser lower lower (Some octocat) "u3" 2000 accounts).2).
Proof.
  intros lower.
  assert (findOne "email" (JStr "octocat@github.com")
            (createUser lower lower (Some octocat) "u3" 2000 accounts).2 = true)
    as Hex by by_eval.
  split; [|split; [exact Hex|]].
  - exact (proj1 (createUser_idempotent lower lower (Some octocat) "u3" 2000 "u4"
                    3000 accounts)).
  - exact (proj2 (createUser_idempotent lower lower (Some octocat) "u4" 3000 "u4"
                    3000 (createUser lower lower (Some octocat) "u3" 2000 accounts).2)
             octocat "octocat@github.com" [] eq_refl eq_refl Hex).
Defined.

Example createUser_first_login :
  (createUser (λ s, s) (λ s, s) (Some octocat) "u3" 2000 accounts).2 !! "u3"
  = Some ({[ "githubId" := JStr "583231"; "email" := JStr "octocat@github.com";
             "displayName" := JStr "The Octocat"; "isAdmin" := JBool false;
             "createdAt" := JNum 2000; "updatedAt" := JNum 2000 ]} : Doc).
Proof. by_eval. Qed.

Lemma getUserById_without_session_witness :
  "u2" ≠ "me" ∧ accounts !! "u2" = Some bob
  ∧ getUserById None "u2" accounts = Json 200 bob.
Proof.
  assert ("u2" ≠ "me") as Hme by by_eval.
  assert (accounts !! "u2" = Some bob) as Hu by by_eval.
  repeat (split; [assumption|]).
  exact (getUserById_without_session "u2" accounts bob Hme Hu).
Defined.

End UserProps.

(** * Further properties of the order controller *)

Module OrderLookupProps.
Import Orders OrderLookup Sample.

Section WithNumbers.
Context {num : Type} `{JsNumber num}.

Implicit Types (catalog : gmap string (Flower num)).
Implicit Types (orders : gmap string (Order num)).
Implicit Types (users : gmap string Users.Doc).
Implicit Types (its : list (ItemInput num)) (lines : list (OrderItem num)).

(** Whenever the loop runs to its end, what it returns is what it was
    given, extended: the lines by the new lines, the total by their line
    totals, in order. *)
Lemma priceItems_extends catalog its :
  ∀ (total : num) lines (total' : num) lines',
    priceItems catalog its total lines = inr (total', lines') →
    ∃ new, lines' = lines ++ new
         ∧ total' = fold_left (λ acc li, nadd acc (lineTotal li)) new total
         ∧ Forall2 (snapshotOf catalog) its new.
Proof.
  induction its as [|it its IH]; intros total lines total' lines' Hrun.
  - injection Hrun as <- <-. exists []. rewrite app_nil_r.
    repeat split. constructor.
  - simpl in Hrun. destruct (catalog !! item_flower it) as [fl|] eqn:Hfl; [|done].
    apply IH in Hrun as (new & -> & -> & Hnew).
    exists (lineOf it (price fl) :: new). split; [by rewrite <- app_assoc|].
    split; [done|]. constructor; [|done]. repeat split. by rewrite Hfl.
Qed.

Lemma createOrder_cases catalog orders user its addr oid now :
  (∃ o, createOrder catalog orders user its addr oid now
        = (Json 201 o, <[oid := o]> orders)
      ∧ totalAmount o = sumLines (items o)
      ∧ Forall2 (snapshotOf catalog) its (items o)
      ∧ o = newOrder user (items o) (totalAmount o) addr now)
  ∨ (∃ msg, createOrder catalog orders user its addr oid now
            = (Next (Some 400) msg, orders)).
Proof.
  unfold createOrder, save.
  destruct (priceItems catalog its nzero []) as [id|[total lines]] eqn:Hrun.
  - right. by eexists.
  - left. apply priceItems_extends in Hrun as (new & -> & -> & Hnew).
    eexists. split; [done|]. by repeat split.
Qed.

(** X1. Every handler that writes to the order collection keeps the
    invariant that the total of each stored order is the sum of its line
    totals: [createOrder], [updateOrderStatus] and [deleteOrder], whatever
    the request. *)
Theorem order_writes_keep_totals catalog orders user its addr oid id s now :
  totalsConsistent orders →
  totalsConsistent (createOrder catalog orders user its addr oid now).2
  ∧ totalsConsistent (updateOrderStatus orders id s now).2
  ∧ totalsConsistent (deleteOrder id orders).2.
Proof.
  intros Hinv. split; [|split].
  - destruct (createOrder_cases catalog orders user its addr oid now)
      as [(o & -> & Htotal & _)|(msg & ->)]; [|done].
    intros id' o' Hlook. cbn [snd] in Hlook.
    destruct (decide (oid = id')) as [->|Hne].
    + rewrite lookup_insert_eq in Hlook. by injection Hlook as <-.
    + rewrite lookup_insert_ne in Hlook by done. by eapply Hinv.
  - unfold updateOrderStatus, findByIdAndUpdate.
    case_bool_decide; [|done].
    destruct (orders !! id) as [o|] eqn:Ho; [|done].
    intros id' o' Hlook. cbn [snd] in Hlook.
    destruct (decide (id = id')) as [->|Hne].
    + rewrite lookup_insert_eq in Hlook. injection Hlook as <-.
      exact (Hinv id' o Ho).
    + rewrite lookup_insert_ne in Hlook by done. by eapply Hinv.
  - unfold deleteOrder. destruct (orders !! id) as [o|] eqn:Ho; [|done].
    intros id' o' Hlook. cbn [snd] in Hlook.
    apply lookup_delete_Some in Hlook as [_ Hlook]. by eapply Hinv.
Qed.

(** X2. An order that [createOrder] stored is what [getOrderById] answers
    for the new id, and it carries the prices and the total fixed at
    creation: whatever the catalog holds when the order is read, each line
    has the quantity of its entry and the price the catalog had for it at
    creation, and the total is the sum of these lines. *)
Theorem createOrder_then_getOrderById
    catalog catalog' users orders user its addr oid now :
  Forall (resolves catalog) its →
  ∃ o po,
    createOrder catalog orders user its addr oid now
    = (Json 201 o, <[oid := o]> orders)
    ∧ getOrderById oid users catalog'
        (createOrder catalog orders user its addr oid now).2
      = Json 200 po
    ∧ p_id po = oid ∧ p_status po = "pending"
    ∧ p_totalAmount po = sumLines (items o)
    ∧ Forall2 (λ it pi,
                 p_quantity pi = item_quantity it
                 ∧ price <$> catalog !! item_flower it
                   = Some (p_priceAtPurchase pi)
                 ∧ p_flower pi
                   = (λ fl, (item_flower it, fl)) <$> catalog' !! item_flower it)
        its (p_items po).
Proof.
  intros Hres.
  destruct (createOrder_cases catalog orders user its addr oid now)
    as [(o & Hrun & Htotal & Hsnap & Ho)|(msg & Hfail)].
  - exists o, (populateOrder users catalog' oid o). rewrite Hrun.
    unfold getOrderById. cbn [snd]. rewrite lookup_insert_eq.
    repeat split; [by rewrite Ho|done|].
    cbn [p_items populateOrder]. apply Forall2_fmap_r.
    eapply Forall2_impl; [exact Hsnap|].
    intros it li (Hf & Hq & Hp). cbn. by rewrite Hf.
  - exfalso. unfold createOrder in Hfail.
    destruct (OrderProps.priceItems_resolved catalog its Hres nzero [])
      as (new & Hrun & _).
    by rewrite Hrun in Hfail.
Qed.

(** X3. Creating an order under an id that is not in use and deleting it
    again gives back the collection as it was; the order can then no
    longer be read. *)
Theorem createOrder_then_deleteOrder
    catalog users orders user its addr oid now :
  Forall (resolves catalog) its → orders !! oid = None →
  deleteOrder oid (createOrder catalog orders user its addr oid now).2
  = (Json 200 "Order deleted", orders)
  ∧ getOrderById oid users catalog orders
    = Next (Some 404) ("Order not found with ID " +:+ oid).
Proof.
  intros Hres Hfresh.
  destruct (OrderProps.priceItems_resolved catalog its Hres nzero [])
    as (new & Hrun & _).
  unfold createOrder, save. rewrite Hrun. cbn [snd].
  unfold deleteOrder, getOrderById. rewrite lookup_insert_eq, Hfresh.
  by rewrite delete_insert_id.
Qed.

(** X4. After [deleteOrder] the id is gone, whether or not it was there: a
    read of it and a second delete both answer 404, and the second delete
    changes nothing. No other order is touched. *)
Theorem deleteOrder_gone id users catalog orders :
  getOrderById id users catalog (deleteOrder id orders).2
  = Next (Some 404) ("Order not found with ID " +:+ id)
  ∧ deleteOrder id (deleteOrder id orders).2
    = (Next (Some 404) ("Order not found with ID " +:+ id),
       (deleteOrder id orders).2)
  ∧ ∀ id', id' ≠ id → (deleteOrder id orders).2 !! id' = orders !! id'.
Proof.
  assert ((deleteOrder id orders).2 !! id = None) as Hgone.
  { unfold deleteOrder. destruct (orders !! id) eqn:Ho; [|done].
    apply lookup_delete_eq. }
  split; [|split].
  - unfold getOrderById. by rewrite Hgone.
  - unfold deleteOrder at 1. by rewrite Hgone.
  - intros id' Hne. unfold deleteOrder.
    destruct (orders !! id); [|done]. by apply lookup_delete_ne.
Qed.

(** X5. [updateOrderStatus] never adds or removes an order and never
    touches an order other than the one addressed; and unless it answers
    with the updated order, it writes nothing at all. *)
Theorem updateOrderStatus_collection_frame orders id s now :
  dom (updateOrderStatus orders id s now).2 = dom orders
  ∧ (∀ id', id' ≠ id →
       (updateOrderStatus orders id s now).2 !! id' = orders !! id')
  ∧ (dataOf (updateOrderStatus orders id s now).1 = None →
       (updateOrderStatus orders id s now).2 = orders).
Proof.
  unfold updateOrderStatus, findByIdAndUpdate.
  case_bool_decide; [|done].
  destruct (orders !! id) as [o|] eqn:Ho; [|done]. cbn [fst snd dataOf].
  split; [|split; [|done]].
  - by apply dom_insert_lookup_L.
  - intros id' Hne. by apply lookup_insert_ne.
Qed.

(** X6. [getOrders] answers 200 with exactly the stored orders, each once
    and populated, and with their number as [count]; when [userId] is a
    non-empty string these are exactly the orders of that user, and
    otherwise (no [userId], or the empty string) all of them. *)
Theorem getOrders_exact userId users catalog orders :
  ∃ l, getOrders userId users catalog orders = Json 200 l
     ∧ count l = length (data l)
     ∧ NoDup (p_id <$> data l)
     ∧ ∀ po, po ∈ data l ↔
         ∃ id o, orders !! id = Some o
               ∧ (∀ u, userId = Some u → u ≠ "" → user o = u)
               ∧ po = populateOrder users catalog id o.
Proof.
  eexists. split; [reflexivity|]. cbn [count data].
  split; [done|]. split.
  - rewrite <- list_fmap_compose.
    apply (NoDup_fmap_2_strong _); [|apply NoDup_map_to_list].
    intros [id1 o1] [id2 o2] Hin1 Hin2 Heq. cbn in Heq. subst id2.
    unfold findOrders in Hin1, Hin2.
    by rewrite (map_to_list_unique _ _ _ _ Hin1 Hin2).
  - intros po. rewrite list_elem_of_fmap. unfold findOrders. split.
    + intros ([id o] & -> & Hin). exists id, o.
      apply elem_of_map_to_list in Hin.
      destruct userId as [u|]; [case_bool_decide as Hu|].
      * subst u. split; [done|]. split; [|done]. by intros u [= <-].
      * apply map_lookup_filter_Some in Hin as [Ho Huser].
        split; [done|]. split; [|done]. by intros u' [= <-].
      * split; [done|]. split; [|done]. by intros u [=].
    + intros (id & o & Ho & Huser & ->). exists (id, o). split; [done|].
      apply elem_of_map_to_list.
      destruct userId as [u|]; [case_bool_decide as Hu|]; [done| |done].
      apply map_lookup_filter_Some. split; [done|]. by apply Huser.
Qed.

End WithNumbers.

(** ** Concrete runs *)

Lemma oneOrder_consistent : totalsConsistent Scenes.oneOrder.
Proof.
  unfold Scenes.oneOrder.
  intros id o [<- <-]%lookup_singleton_Some. vm_compute. reflexivity.
Defined.

Lemma twoRoses_resolve : Forall (resolves roses) Scenes.twoRoses.
Proof. constructor; [|constructor]. eexists. vm_compute. reflexivity. Defined.

Lemma order_writes_keep_totals_witness :
  totalsConsistent Scenes.oneOrder
  ∧ totalsConsistent
      (createOrder roses Scenes.oneOrder "u2" Scenes.twoRoses "2 Park Row"
         "o2" 2000%Z).2
  ∧ totalsConsistent (updateOrderStatus Scenes.oneOrder "o1" "shipped" 2000%Z).2
  ∧ totalsConsistent (deleteOrder "o1" Scenes.oneOrder).2.
Proof.
  split; [exact oneOrder_consistent|].
  exact (order_writes_keep_totals roses Scenes.oneOrder "u2" Scenes.twoRoses
           "2 Park Row" "o2" "o1" "shipped" 2000%Z oneOrder_consistent).
Defined.

Lemma createOrder_then_getOrderById_witness :
  Forall (resolves roses) Scenes.twoRoses
  ∧ ∃ o po,
      createOrder roses Scenes.oneOrder "u2" Scenes.twoRoses "2 Park Row"
        "o2" 2000%Z
      = (Json 201 o, <["o2" := o]> Scenes.oneOrder)
      ∧ getOrderById "o2" accounts Scenes.rosesLater
          (createOrder roses Scenes.oneOrder "u2" Scenes.twoRoses "2 Park Row"
             "o2" 2000%Z).2
        = Json 200 po
      ∧ p_id po = "o2" ∧ p_status po = "pending"
      ∧ p_totalAmount po = sumLines (items o)
      ∧ Forall2 (λ it pi,
                   p_quantity pi = item_quantity it
                   ∧ price <$> roses !! item_flower it
                     = Some (p_priceAtPurchase pi)
                   ∧ p_flower pi
                     = (λ fl, (item_flower it, fl))
                         <$> Scenes.rosesLater !! item_flower it)
          Scenes.twoRoses (p_items po).
Proof.
  split; [exact twoRoses_resolve|].
  exact (createOrder_then_getOrderById roses Scenes.rosesLater accounts
           Scenes.oneOrder "u2" Scenes.twoRoses "2 Park Row" "o2" 2000%Z
           twoRoses_resolve).
Defined.

(** The order is read back with the price of its creation, 10, and the
    total 20, next to a populated flower that now costs 12. *)
Example getOrderById_after_price_change :
  (λ po, (p_totalAmount po,
          (λ pi, (p_priceAtPurchase pi, price ∘ snd <$> p_flower pi))
            <$> p_items po))
    <$> dataOf (getOrderById "o2" accounts Scenes.rosesLater
                  (createOrder roses Scenes.oneOrder "u2" Scenes.twoRoses
                     "2 Park Row" "o2" 2000%Z).2)
  = Some (20%Z, [(10%Z, Some 12%Z)]).
Proof. vm_compute. reflexivity. Qed.

Lemma createOrder_then_deleteOrder_witness :
  Forall (resolves roses) Scenes.twoRoses
  ∧ Scenes.oneOrder !! "o2" = None
  ∧ deleteOrder "o2"
      (createOrder roses Scenes.oneOrder "u2" Scenes.twoRoses "2 Park Row"
         "o2" 2000%Z).2
    = (Json 200 "Order deleted", Scenes.oneOrder)
  ∧ getOrderById "o2" accounts roses Scenes.oneOrder
    = Next (Some 404) ("Order not found with ID " +:+ "o2").
Proof.
  assert (Scenes.oneOrder !! "o2" = None) as Hfresh
    by (vm_compute; reflexivity).
  split; [exact twoRoses_resolve|]. split; [exact Hfresh|].
  exact (createOrder_then_deleteOrder roses accounts Scenes.oneOrder "u2"
           Scenes.twoRoses "2 Park Row" "o2" 2000%Z twoRoses_resolve Hfresh).
Defined.

Example getOrders_by_user :
  (λ l, p_id <$> data l)
    <$> dataOf (getOrders (Some "u1") accounts roses
                  (<["o2" := newOrder "u2" [] 0%Z "" 0%Z]> Scenes.oneOrder))
  = Some ["o1"]
  ∧ count <$> dataOf (getOrders (Some "") accounts roses
      (<["o2" := newOrder "u2" [] 0%Z "" 0%Z]> Scenes.oneOrder))
    = Some 2.
Proof. split; vm_compute; reflexivity. Qed.

End OrderLookupProps.

(** * Further properties of the user controller *)

Module UserLookupProps.
Import Users UserLookup Sample.

Implicit Types (users : gmap string Doc) (user body : Doc) (p : Principal).

(** ** What [updateUser] writes *)

Section Schema.
Variable castPath : string → JsVal → option JsVal.
Variable applyOperators :
  Doc → string → Doc → gmap string Doc → string + Doc.

Local Abbreviation updateUser := (updateUser castPath applyOperators).
Local Abbreviation findByIdAndUpdate :=
  (findByIdAndUpdate castPath applyOperators).

(** [updateUser] either leaves the collection alone, answering with an
    error, or answers 200 with the document that [findByIdAndUpdate]
    stored in the place of the account the request resolves to. *)
Lemma updateUser_cases reqUser paramId body now users :
  (dataOf (updateUser reqUser paramId body now users).1 = None
   ∧ (updateUser reqUser paramId body now users).2 = users)
  ∨ ∃ p user user',
      reqUser = Some p
      ∧ users !! (if bool_decide (paramId = "me") then id p else paramId)
        = Some user
      ∧ findByIdAndUpdate
          (if bool_decide (paramId = "me") then id p else paramId)
          (buildUpdates p body now) users
        = inr (Some user',
               <[(if bool_decide (paramId = "me") then id p else paramId)
                 := user']> users)
      ∧ updateUser reqUser paramId body now users
        = (Json 200 (Some user'),
           <[(if bool_decide (paramId = "me") then id p else paramId)
             := user']> users).
Proof.
  destruct reqUser as [p|];
    [|by left; unfold Users.updateUser; case_bool_decide].
  destruct (decide (id p = "")) as [Hid|Hid].
  { left. unfold Users.updateUser, noUserSession.
    rewrite (bool_decide_eq_true_2 (id p = "")) by done.
    by case_bool_decide. }
  rewrite UserProps.updateUser_resolved by done. cbn zeta.
  destruct (users !! _) as [user|] eqn:Hu; [|by left].
  destruct (notAdminNorOwner p _); [by left|].
  destruct (changesRole p body user); [by left|].
  destruct (findByIdAndUpdate _ _ _) as [error|[written users']] eqn:Hwrite;
    [by left|].
  assert (∃ user', written = Some user'
                   ∧ users' = <[(if bool_decide (paramId = "me")
                                 then id p else paramId) := user']> users)
    as (user' & -> & ->).
  { unfold Users.findByIdAndUpdate in Hwrite. rewrite Hu in Hwrite.
    destruct (plainUpdate _).
    - destruct (castUpdate castPath _); [|done].
      destruct (conflicts _ _ _); [done|].
      injection Hwrite as <- <-. by eexists.
    - destruct (applyOperators _ _ _ _); [done|].
      injection Hwrite as <- <-. by eexists. }
  right. by exists p, user, user'.
Qed.

(** The fields of the document after the write of a plain patch by an
    admin. *)
Lemma admin_update_lookup p body now user (set : Doc) k :
  role p = "admin" →
  castUpdate castPath (buildUpdates p body now) = Some set →
  (set ∪ user) !! k
  = if decide (k = "updatedAt") then castPath "updatedAt" (JNum now)
    else if decide (k = "googleId") then user !! k
         else if decide (k ∈ schemaPaths)
              then match body !! k with
                   | Some v => castPath k v
                   | None => user !! k
                   end
              else user !! k.
Proof.
  intros Hrole Hset.
  assert (castable castPath (buildUpdates p body now)) as Hc.
  { unfold castUpdate in Hset. by case_bool_decide. }
  rewrite UserProps.castable_lookup in Hc.
  rewrite lookup_union, (UserProps.castUpdate_lookup _ _ _ _ Hset),
    UserProps.buildUpdates_admin by done.
  destruct (decide (k = "updatedAt")) as [->|Hupd].
  { rewrite decide_True by (apply (bool_decide_unpack _); by vm_compute).
    cbn. destruct (Hc "updatedAt" (JNum now)) as [d ->].
    - apply (bool_decide_unpack _). by vm_compute.
    - by rewrite UserProps.buildUpdates_admin, decide_True.
    - by destruct (user !! "updatedAt"). }
  destruct (decide (k = "googleId")) as [->|Hg].
  { rewrite decide_True by (apply (bool_decide_unpack _); by vm_compute).
    cbn. by destruct (user !! "googleId"). }
  destruct (decide (k ∈ schemaPaths)) as [Hs|Hs]; [|by destruct (user !! k)].
  destruct (body !! k) as [v|] eqn:Hv; cbn; [|by destruct (user !! k)].
  destruct (Hc k v Hs) as [d ->]; [|by destruct (user !! k)].
  by rewrite UserProps.buildUpdates_admin, !decide_False.
Qed.

Lemma googleId_not_allowed : "googleId" ∉ allowedUpdates.
Proof. by apply (bool_decide_eq_false_1 ("googleId" ∈ allowedUpdates)). Qed.

(** The document a successful [findByIdAndUpdate] of a caller who is not
    an admin stores. *)
Lemma findByIdAndUpdate_self_inv p uid body now users user user' users' :
  role p ≠ "admin" → users !! uid = Some user →
  findByIdAndUpdate uid (buildUpdates p body now) users
  = inr (Some user', users') →
  ∃ set, castUpdate castPath (buildUpdates p body now) = Some set
       ∧ user' = set ∪ user.
Proof.
  intros Hrole Hu. rewrite (UserProps.findByIdAndUpdate_self _ _ p _ _ _ _ user)
    by done.
  destruct (castUpdate castPath _) as [set|]; [|done].
  intros [= <- _]. by exists set.
Qed.

(** The same for an admin whose patch has plain field names only. *)
Lemma findByIdAndUpdate_admin_inv p uid body now users user user' users' :
  role p = "admin" → plainUpdate body = true → users !! uid = Some user →
  findByIdAndUpdate uid (buildUpdates p body now) users
  = inr (Some user', users') →
  ∃ set, castUpdate castPath (buildUpdates p body now) = Some set
       ∧ user' = set ∪ user.
Proof.
  intros Hrole Hplain Hu.
  rewrite (UserProps.findByIdAndUpdate_plain _ _ _ _ _ user)
    by (done || by apply UserProps.buildUpdates_admin_plain).
  destruct (castUpdate castPath _) as [set|]; [|done].
  destruct (conflicts _ _ _); [done|].
  intros [= <- _]. by exists set.
Qed.

(** X7. [updateUser] does not write [googleId] as long as the keys of an
    admin's patch are plain field names: for a caller who is not an admin
    with any patch, and for an admin with a patch that has no operator or
    dotted key, every account keeps the [googleId] it had (or keeps having
    none), whatever the answer is. *)
Theorem updateUser_keeps_googleId reqUser paramId body now users uid :
  (∀ p, reqUser = Some p → role p = "admin" → plainUpdate body = true) →
  fieldOf (updateUser reqUser paramId body now users).2 uid "googleId"
  = fieldOf users uid "googleId".
Proof.
  intros Hplain.
  destruct (updateUser_cases reqUser paramId body now users)
    as [[_ ->]|(p & user & user' & -> & Hu & Hwrite & ->)]; [done|].
  unfold fieldOf. cbn [snd].
  destruct (decide ((if bool_decide (paramId = "me") then id p else paramId)
                    = uid)) as [<-|Hne];
    [|by rewrite lookup_insert_ne].
  rewrite lookup_insert_eq, Hu. cbn.
  destruct (decide (role p = "admin")) as [Hadmin|Hrole].
  - destruct (findByIdAndUpdate_admin_inv p _ body now users user user' _
                Hadmin (Hplain p eq_refl Hadmin) Hu Hwrite)
      as (set & Hset & ->).
    by rewrite (admin_update_lookup p body now user set).
  - destruct (findByIdAndUpdate_self_inv p _ body now users user user' _
                Hrole Hu Hwrite) as (set & Hset & ->).
    rewrite (UserProps.self_update_lookup _ p body now user set) by done.
    rewrite decide_False by done.
    by rewrite decide_False
      by (apply (bool_decide_eq_false_1 _); by vm_compute).
Qed.

(** X8. Without the admin role nothing but [displayName],
    [profilePicture], [phoneNumber], [address] and [updatedAt] can be
    changed through [updateUser], on any account and with any patch: every
    other field of every account, [role], [isAdmin] and [email] among
    them, is after the call what it was before. *)
Theorem updateUser_non_admin_fields reqUser paramId body now users uid k :
  (∀ p, reqUser = Some p → role p ≠ "admin") →
  k ∉ allowedUpdates → k ≠ "updatedAt" →
  fieldOf (updateUser reqUser paramId body now users).2 uid k
  = fieldOf users uid k.
Proof.
  intros Hrole Hk Hupd.
  destruct (updateUser_cases reqUser paramId body now users)
    as [[_ ->]|(p & user & user' & -> & Hu & Hwrite & ->)]; [done|].
  unfold fieldOf. cbn [snd].
  destruct (decide ((if bool_decide (paramId = "me") then id p else paramId)
                    = uid)) as [<-|Hne];
    [|by rewrite lookup_insert_ne].
  rewrite lookup_insert_eq, Hu. cbn.
  destruct (findByIdAndUpdate_self_inv p _ body now users user user' _
              (Hrole p eq_refl) Hu Hwrite) as (set & Hset & ->).
  rewrite (UserProps.self_update_lookup _ p body now user set)
    by (done || by apply Hrole).
  rewrite decide_False by done.
  destruct (decide (k ∈ ["displayName"; "profilePicture"])) as [Hin|]; [|done].
  exfalso. apply Hk.
  repeat (apply elem_of_cons in Hin as [->|Hin];
          [apply (bool_decide_unpack _); by vm_compute|]).
  by apply elem_of_nil in Hin.
Qed.

(** X9. An admin's patch of plain field names, on an account addressed by
    its id. The handler itself never refuses it; the write decides. If a
    cast or a validator of the schema refuses a value of the patch, or if
    the patch sets a unique path to the value another account holds, the
    error goes to [next] and nothing is written. Otherwise the answer is
    200 and, in the stored document, [updatedAt] is the cast time of the
    write even when the patch names another, [googleId] is what it was,
    every other path that the schema declares is the cast value of the
    patch where the patch has the path and what it was where it has not,
    and every field that the schema does not declare, [role] among them,
    is what it was. *)
Theorem updateUser_admin_patch p paramId body now users user :
  role p = "admin" → id p ≠ "" → paramId ≠ "me" →
  users !! paramId = Some user → plainUpdate body = true →
  match castUpdate castPath (buildUpdates p body now) with
  | None =>
      updateUser (Some p) paramId body now users
      = (Next None writeRefused, users)
  | Some set =>
      if conflicts paramId set users
      then updateUser (Some p) paramId body now users
           = (Next None duplicateKeyError, users)
      else
        ∃ user',
          updateUser (Some p) paramId body now users
          = (Json 200 (Some user'), <[paramId := user']> users)
          ∧ user' !! "updatedAt" = castPath "updatedAt" (JNum now)
          ∧ user' !! "googleId" = user !! "googleId"
          ∧ (∀ k, k ∈ schemaPaths → k ≠ "updatedAt" → k ≠ "googleId" →
                  user' !! k
                  = match body !! k with
                    | Some v => castPath k v
                    | None => user !! k
                    end)
          ∧ (∀ k, k ∉ schemaPaths → user' !! k = user !! k)
  end.
Proof.
  intros Hadmin Hid Hme Hu Hplain.
  rewrite UserProps.updateUser_resolved by done. cbn zeta.
  rewrite (bool_decide_eq_false_2 (paramId = "me")) by done. rewrite Hu.
  rewrite UserProps.notAdminNorOwner_admin, UserProps.changesRole_admin by done.
  rewrite (UserProps.findByIdAndUpdate_plain _ _ _ _ _ user)
    by (done || by apply UserProps.buildUpdates_admin_plain).
  destruct (castUpdate castPath _) as [set|] eqn:Hset; [|done].
  destruct (conflicts _ _ _); [done|].
  eexists. split; [reflexivity|]. split; [|split; [|split]].
  - by rewrite (admin_update_lookup p body now user set), decide_True.
  - by rewrite (admin_update_lookup p body now user set).
  - intros k Hs Hupd Hg.
    rewrite (admin_update_lookup p body now user set) by done.
    rewrite (decide_False (P := k = "updatedAt")) by done.
    rewrite (decide_False (P := k = "googleId")) by done.
    by rewrite decide_True.
  - intros k Hs.
    rewrite (admin_update_lookup p body now user set) by done.
    rewrite decide_False
      by (intros ->; apply Hs, (bool_decide_unpack _); by vm_compute).
    destruct (decide (k = "googleId")); [done|]. by rewrite decide_False.
Qed.

(** X10. [updateUser] never adds or removes an account, changes no account
    other than the one the request resolves to, which is the account of
    the id of the request or, for "me", the caller's own, and writes
    nothing unless it answers with the updated document. *)
Theorem updateUser_collection_frame reqUser paramId body now users :
  dom (updateUser reqUser paramId body now users).2 = dom users
  ∧ (∀ uid,
       (paramId ≠ "me" → uid ≠ paramId) →
       (paramId = "me" → ∀ p, reqUser = Some p → uid ≠ id p) →
       (updateUser reqUser paramId body now users).2 !! uid = users !! uid)
  ∧ (dataOf (updateUser reqUser paramId body now users).1 = None →
       (updateUser reqUser paramId body now users).2 = users).
Proof.
  destruct (updateUser_cases reqUser paramId body now users)
    as [[Hdata ->]|(p & user & user' & -> & Hu & Hwrite & ->)]; [done|].
  cbn [fst snd dataOf]. split; [|split; [|done]].
  - by apply dom_insert_lookup_L.
  - intros uid Hparam Hme. apply lookup_insert_ne.
    case_bool_decide as Hp; [by apply not_eq_sym, Hme|].
    by apply not_eq_sym, Hparam.
Qed.

(** X24. For a principal that carries an id, "me" stands for that id:
    [getUserById] and [updateUser] answer, and [updateUser] writes, for
    "me" exactly what they do for the principal's own id; and neither is
    ever answered with the 403 of the ownership check. *)
Theorem me_is_own_id p body now users :
  id p ≠ "" →
  getUserById (Some p) "me" users = getUserById (Some p) (id p) users
  ∧ updateUser (Some p) "me" body now users
    = updateUser (Some p) (id p) body now users
  ∧ getUserById (Some p) "me" users ≠ JsonError 403 viewDenied
  ∧ (updateUser (Some p) "me" body now users).1 ≠ JsonError 403 updateDenied.
Proof.
  intros Hid.
  assert (getUserById (Some p) "me" users
          = match users !! id p with
            | Some user => Json 200 user
            | None => JsonError 404 "User not found"
            end) as Hget.
  { unfold getUserById. rewrite bool_decide_eq_true_2 by done.
    rewrite UserProps.noUserSession_some by done.
    destruct (users !! id p); [|done].
    by rewrite UserProps.notAdminNorOwner_owner. }
  assert (∀ paramId,
            (if bool_decide (paramId = "me") then id p else paramId) = id p →
            updateUser (Some p) paramId body now users
            = match users !! id p with
              | None => (JsonError 404 "User not found", users)
              | Some user =>
                  if changesRole p body user
                  then (JsonError 403 roleDenied, users)
                  else
                    match findByIdAndUpdate (id p) (buildUpdates p body now)
                            users with
                    | inl error => (Next None error, users)
                    | inr (user', users') => (Json 200 user', users')
                    end
              end) as Hupd.
  { intros paramId Htarget.
    rewrite UserProps.updateUser_resolved by done. cbn zeta. rewrite Htarget.
    destruct (users !! id p); [|done].
    by rewrite UserProps.notAdminNorOwner_owner. }
  split; [|split; [|split]].
  - rewrite Hget. unfold getUserById. case_bool_decide as Hme.
    + rewrite UserProps.noUserSession_some by done.
      destruct (users !! id p); [|done].
      by rewrite UserProps.notAdminNorOwner_owner.
    + destruct (users !! id p); [|done].
      by rewrite UserProps.notAdminNorOwner_owner.
  - rewrite (Hupd "me"), (Hupd (id p)); [done|by case_bool_decide|done].
  - rewrite Hget. by destruct (users !! id p).
  - rewrite (Hupd "me") by done. destruct (users !! id p) as [user|]; [|done].
    destruct (changesRole p body user); [done|].
    by destruct (findByIdAndUpdate _ _ _) as [|[]].
Qed.

End Schema.

(** What is made of operator keys has no part in the outcome of an update
    document of plain field names, which is what every caller who is not
    an admin sends to the store. *)
Lemma updateUser_plain_operators castPath operators operators'
    reqUser paramId body now users :
  (∀ p, reqUser = Some p → plainUpdate (buildUpdates p body now) = true) →
  updateUser castPath operators reqUser paramId body now users
  = updateUser castPath operators' reqUser paramId body now users.
Proof.
  intros Hplain. unfold updateUser.
  destruct reqUser as [p|]; [|done].
  destruct (bool_decide (paramId = "me")); cbn [fmap option_fmap option_map];
    (destruct (noUserSession _); [done|]);
    (destruct (users !! _) as [user|] eqn:Hu; [|done]);
    (destruct (notAdminNorOwner _ _); [done|]);
    (destruct (changesRole _ _ _); [done|]);
    unfold findByIdAndUpdate; by rewrite Hu, (Hplain p eq_refl).
Qed.

(** ** What [deleteUser] leaves *)

Lemma findOne_false field v users uid doc :
  findOne field v users = false → users !! uid = Some doc →
  doc !! field ≠ Some v.
Proof.
  unfold findOne, find. intros Hnone Hu Hf.
  apply negb_false_iff, bool_decide_eq_true_1 in Hnone.
  assert (filter (λ kv : string * Doc, kv.2 !! field = Some v) users !! uid
          = Some doc) as Hin by by apply map_lookup_filter_Some.
  by rewrite Hnone, lookup_empty in Hin.
Qed.

Lemma countDocuments_pos field v users uid doc :
  users !! uid = Some doc → doc !! field = Some v →
  (1 ≤ countDocuments field v users)%nat.
Proof.
  intros Hu Hf. unfold countDocuments, find.
  assert (filter (λ kv : string * Doc, kv.2 !! field = Some v) users !! uid
          = Some doc) as Hin by by apply map_lookup_filter_Some.
  assert (size (filter (λ kv : string * Doc, kv.2 !! field = Some v) users) ≠ 0)
    as Hsize; [|lia].
  apply map_size_non_empty_iff. intros Hempty.
  by rewrite Hempty, lookup_empty in Hin.
Qed.

Lemma countDocuments_delete field v users uid :
  (countDocuments field v users - 1 ≤ countDocuments field v (delete uid users))%nat.
Proof.
  unfold countDocuments, find. rewrite map_filter_delete, map_size_delete.
  destruct (filter _ users !! uid); simpl; lia.
Qed.

(** X11. An admin whose own account is stored with the admin role cannot
    leave the collection without an admin account through [deleteUser],
    whichever account the request names: its own is held back by the
    last-admin guard once it is the only one, and deleting another leaves
    its own. *)
Theorem deleteUser_admin_keeps_an_admin p paramId users user :
  role p = "admin" → users !! id p = Some user →
  user !! "role" = Some (JStr "admin") →
  (1 ≤ countDocuments "role" (JStr "admin")
         (deleteUser (Some p) paramId users).2)%nat.
Proof.
  intros Hadmin Hu Hrole.
  pose proof (countDocuments_pos "role" (JStr "admin") users (id p) user Hu Hrole)
    as Hpos.
  unfold deleteUser. destruct (users !! paramId) as [target|] eqn:Ht; [|done].
  case_bool_decide as Hown; cbn [andb].
  - rewrite bool_decide_eq_true_2 by done.
    destruct (Nat.leb_spec (countDocuments "role" (JStr "admin") users) 1)
      as [Hle|Hgt]; [done|]. cbn [snd].
    pose proof (countDocuments_delete "role" (JStr "admin") users paramId). lia.
  - cbn [snd].
    apply (countDocuments_pos "role" (JStr "admin") _ (id p) user); [|done].
    by rewrite lookup_delete_ne.
Qed.

(** X12. What [deleteUser] does to the collection. Unless it answers 200
    it writes nothing. When it answers 200 exactly the account named is
    gone: reading it by id answers 404 for every caller, [getUsers] lists
    one account fewer, and every other account is as it was. *)
Theorem deleteUser_effect reqUser reqUser' paramId users :
  (dataOf (deleteUser reqUser paramId users).1 = None →
     (deleteUser reqUser paramId users).2 = users)
  ∧ (is_Some (dataOf (deleteUser reqUser paramId users).1) →
     (paramId ≠ "me" →
        getUserById reqUser' paramId (deleteUser reqUser paramId users).2
        = JsonError 404 "User not found")
     ∧ (count <$> dataOf (getUsers (deleteUser reqUser paramId users).2)
        = Some (size users - 1))
     ∧ ∀ uid, uid ≠ paramId →
         (deleteUser reqUser paramId users).2 !! uid = users !! uid).
Proof.
  unfold deleteUser. destruct (users !! paramId) as [target|] eqn:Ht.
  2: { split; [done|]. by intros [? [=]]. }
  destruct reqUser as [p|]; [|split; [done|by intros [? [=]]]].
  assert (∀ r : Response string * gmap string Doc,
            r = (JsonError 400 lastAdmin, users)
            ∨ r = (Json 200 "User deleted successfully", delete paramId users) →
            (dataOf r.1 = None → r.2 = users)
            ∧ (is_Some (dataOf r.1) →
               (paramId ≠ "me" →
                getUserById reqUser' paramId r.2 = JsonError 404 "User not found")
               ∧ count <$> dataOf (getUsers r.2) = Some (size users - 1)
               ∧ ∀ uid, uid ≠ paramId → r.2 !! uid = users !! uid)) as Hboth.
  { intros r [->| ->]; cbn [fst snd dataOf].
    - split; [done|by intros [? [=]]].
    - split; [done|]. intros _. split; [|split].
      + intros Hme. unfold getUserById.
        by rewrite bool_decide_eq_false_2, lookup_delete_eq.
      + unfold getUsers. cbn. rewrite length_map_to_list.
        rewrite map_size_delete, Ht. f_equal. simpl. lia.
      + intros uid Hne. by apply lookup_delete_ne. }
  apply Hboth. cbn zeta.
  destruct (_ && _); [|by right].
  destruct (_ <=? _)%nat; [by left|by right].
Qed.

(** ** What [createUser] leaves *)

Section CreateUser.
Variable castEmail : string → string.
Variable castName : string → string.

(** [createUser] either leaves the collection alone or stores, under the
    new id, a document whose [email] is not empty and whose [email] and
    [githubId] no stored account held. *)
Lemma createUser_cases reqUser uid now users :
  (createUser castEmail castName reqUser uid now users).2 = users
  ∨ ∃ g email rest (doc : Doc),
      reqUser = Some g ∧ gh_emails g = email :: rest
      ∧ castEmail email ≠ ""
      ∧ findOne "email" (JStr (castEmail email)) users = false
      ∧ findOne "githubId" (JStr (gh_id g)) users = false
      ∧ doc = {[ "githubId" := JStr (gh_id g);
                 "email" := JStr (castEmail email);
                 "displayName" := JStr (castName (gh_displayName g));
                 "isAdmin" := JBool false;
                 "createdAt" := JNum now;
                 "updatedAt" := JNum now ]}
      ∧ createUser castEmail castName reqUser uid now users
        = (None, <[uid := doc]> users).
Proof.
  unfold createUser. destruct reqUser as [g|]; [|by left].
  destruct (gh_emails g) as [|email rest] eqn:Hmail; [by left|].
  destruct (findOne "email" _ users) eqn:Hex; [by left|].
  rewrite UserProps.createUser_save, Hex, orb_false_r.
  case_bool_decide as Hempty; [by left|].
  destruct (findOne "githubId" _ users) eqn:Hgh; [by left|].
  right. by eexists g, email, rest, _.
Qed.

(** X13. [createUser] keeps the unique indexes of the collection: if no
    two accounts share an [email], none do afterwards, and the same for
    [githubId]. *)
Theorem createUser_keeps_unique reqUser uid now users path :
  path = "email" ∨ path = "githubId" →
  uniqueIndex path users →
  uniqueIndex path (createUser castEmail castName reqUser uid now users).2.
Proof.
  intros Hpath Huniq.
  destruct (createUser_cases reqUser uid now users)
    as [->|(g & email & rest & doc & -> & Hmail & Hempty & Hex & Hgh & Hdoc
        & ->)];
    [done|].
  assert (∀ uid' doc' v, users !! uid' = Some doc' →
            doc !! path = Some v → doc' !! path ≠ Some v) as Hnew.
  { intros uid' doc' v Hu Hv.
    destruct Hpath as [-> | ->]; subst doc; simplify_map_eq;
      by eapply findOne_false. }
  intros uid1 uid2 doc1 doc2 v Hu1 Hu2 Hv1 Hv2. cbn [snd] in Hu1, Hu2.
  destruct (decide (uid = uid1)) as [->|Hne1];
    destruct (decide (uid1 = uid2)) as [|Hne]; try done.
  - rewrite lookup_insert_eq in Hu1. rewrite lookup_insert_ne in Hu2 by done.
    injection Hu1 as <-. by destruct (Hnew uid2 doc2 v).
  - rewrite lookup_insert_ne in Hu1 by done.
    destruct (decide (uid = uid2)) as [->|Hne2].
    + rewrite lookup_insert_eq in Hu2. injection Hu2 as <-.
      by destruct (Hnew uid1 doc1 v).
    + rewrite lookup_insert_ne in Hu2 by done. by eapply Huniq.
Qed.

(** X14. A login never makes an admin: for a new id, [createUser] leaves
    the number of accounts with any given [role], so also the number of
    admin accounts that the last-admin guard counts, as it was. *)
Theorem createUser_keeps_roles reqUser uid now users v :
  users !! uid = None →
  countDocuments "role" v
    (createUser castEmail castName reqUser uid now users).2
  = countDocuments "role" v users.
Proof.
  intros Hfresh.
  destruct (createUser_cases reqUser uid now users)
    as [->|(g & email & rest & doc & -> & Hmail & Hempty & Hex & Hgh & Hdoc
        & ->)];
    [done|].
  unfold countDocuments, find. cbn [snd].
  rewrite map_filter_insert_not'; [done| |by intros ? [=]%(eq_trans (eq_sym Hfresh))].
  cbn. subst doc. by simplify_map_eq.
Qed.

(** X15. A first login can be read back: when the cast e-mail of the
    login is not empty and no account holds it or the GitHub id of the
    login, [createUser] completes without an error and the new account is
    what [getUserById] answers for the new id, to any caller without a
    session; it is stored with [isAdmin] false and without a [role]. *)
Theorem createUser_then_getUserById g email rest uid now users :
  gh_emails g = email :: rest →
  castEmail email ≠ "" →
  findOne "email" (JStr (castEmail email)) users = false →
  findOne "githubId" (JStr (gh_id g)) users = false →
  uid ≠ "me" →
  ∃ doc : Doc,
    createUser castEmail castName (Some g) uid now users
    = (None, <[uid := doc]> users)
    ∧ getUserById None uid
        (createUser castEmail castName (Some g) uid now users).2
      = Json 200 doc
    ∧ doc !! "email" = Some (JStr (castEmail email))
    ∧ doc !! "isAdmin" = Some (JBool false)
    ∧ doc !! "role" = None.
Proof.
  intros Hmail Hempty Hex Hgh Hme.
  unfold createUser.
  rewrite Hmail, Hex, UserProps.createUser_save, Hex, Hgh.
  rewrite bool_decide_eq_false_2 by done. cbn [orb snd].
  eexists. split; [done|]. split.
  - unfold getUserById. by rewrite bool_decide_eq_false_2, lookup_insert_eq.
  - by simplify_map_eq.
Qed.

End CreateUser.

(** ** Concrete runs *)

Ltac by_eval := vm_compute; first [reflexivity | exact I | discriminate].

Lemma updateUser_keeps_googleId_witness :
  (∀ p, Some admin1 = Some p → role p = "admin" →
        plainUpdate ({[ "googleId" := JStr "g-1";
                        "displayName" := JStr "Alice B." ]} : Doc) = true)
  ∧ fieldOf (updateUser' (Some admin1) "u1"
               {[ "googleId" := JStr "g-1"; "displayName" := JStr "Alice B." ]}
               2000 accounts).2 "u1" "googleId"
    = fieldOf accounts "u1" "googleId".
Proof.
  assert (∀ p, Some admin1 = Some p → role p = "admin" →
               plainUpdate ({[ "googleId" := JStr "g-1";
                               "displayName" := JStr "Alice B." ]} : Doc)
               = true) as Hplain by (intros p _ _; by_eval).
  split; [exact Hplain|].
  exact (updateUser_keeps_googleId sampleCast sampleOperators (Some admin1)
           "u1" _ 2000 accounts "u1" Hplain).
Defined.

Lemma updateUser_non_admin_fields_witness :
  (∀ p, Some customer1 = Some p → role p ≠ "admin")
  ∧ ("role" ∉ allowedUpdates) ∧ "role" ≠ "updatedAt"
  ∧ fieldOf (updateUser' (Some customer1) "me"
               {[ "role" := JStr ""; "displayName" := JStr "Alice B." ]}
               2000 accounts).2 "u1" "role"
    = fieldOf accounts "u1" "role".
Proof.
  assert (∀ p, Some customer1 = Some p → role p ≠ "admin") as Hrole
    by (intros p [= <-]; by_eval).
  assert ("role" ∉ allowedUpdates) as Hk
    by (apply (bool_decide_eq_false_1 _); by_eval).
  assert ("role" ≠ "updatedAt") as Hupd by by_eval.
  repeat (split; [assumption|]).
  exact (updateUser_non_admin_fields sampleCast sampleOperators
           (Some customer1) "me" _ 2000 accounts "u1" "role" Hrole Hk Hupd).
Defined.

Lemma updateUser_admin_patch_witness :
  role admin1 = "admin" ∧ id admin1 ≠ "" ∧ "u1" ≠ "me"
  ∧ accounts !! "u1" = Some alice
  ∧ plainUpdate ({[ "role" := JStr "admin"; "googleId" := JStr "g-1";
                    "displayName" := JStr "Alice B.";
                    "updatedAt" := JNum 5 ]} : Doc) = true
  ∧ ∃ user',
      updateUser' (Some admin1) "u1"
        {[ "role" := JStr "admin"; "googleId" := JStr "g-1";
           "displayName" := JStr "Alice B."; "updatedAt" := JNum 5 ]}
        2000 accounts
      = (Json 200 (Some user'), <["u1" := user']> accounts)
      ∧ user' !! "updatedAt" = sampleCast "updatedAt" (JNum 2000)
      ∧ user' !! "googleId" = alice !! "googleId"
      ∧ (∀ k, k ∈ schemaPaths → k ≠ "updatedAt" → k ≠ "googleId" →
              user' !! k
              = match ({[ "role" := JStr "admin"; "googleId" := JStr "g-1";
                          "displayName" := JStr "Alice B.";
                          "updatedAt" := JNum 5 ]} : Doc) !! k with
                | Some v => sampleCast k v
                | None => alice !! k
                end)
      ∧ (∀ k, k ∉ schemaPaths → user' !! k = alice !! k).
Proof.
  assert (role admin1 = "admin") as Hadmin by by_eval.
  assert (id admin1 ≠ "") as Hid by by_eval.
  assert ("u1" ≠ "me") as Hme by by_eval.
  assert (accounts !! "u1" = Some alice) as Hu by by_eval.
  assert (plainUpdate ({[ "role" := JStr "admin"; "googleId" := JStr "g-1";
                          "displayName" := JStr "Alice B.";
                          "updatedAt" := JNum 5 ]} : Doc) = true)
    as Hplain by by_eval.
  repeat (split; [assumption|]).
  pose proof (updateUser_admin_patch sampleCast sampleOperators admin1 "u1" _
                2000 accounts alice Hadmin Hid Hme Hu Hplain) as Hrun.
  destruct (castUpdate sampleCast _) as [set|] eqn:Hset;
    [|vm_compute in Hset; discriminate Hset].
  destruct (conflicts "u1" set accounts) eqn:Hconf; [|exact Hrun].
  exfalso. vm_compute in Hset. injection Hset as <-.
  vm_compute in Hconf. discriminate Hconf.
Defined.

(** An admin's patch with a [role], a [googleId] and a [displayName]: the
    name is stored, the role and the [googleId] are not. A patch that
    repeats the e-mail of another account runs into the unique index. *)
Example updateUser_admin_runs :
  (updateUser' (Some admin1) "u1"
     {[ "role" := JStr "admin"; "googleId" := JStr "g-1";
        "displayName" := JStr "Alice B." ]} 2000 accounts).2 !! "u1"
  = Some (<["displayName" := JStr "Alice B."]>
            (<["updatedAt" := JNum 2000]> alice))
  ∧ updateUser' (Some admin1) "u1" {[ "email" := JStr "bob@example.com" ]}
      2000 accounts
    = (Next None duplicateKeyError, accounts).
Proof. repeat split; by_eval. Qed.

Lemma deleteUser_admin_keeps_an_admin_witness :
  role admin1 = "admin" ∧ accounts2 !! id admin1 = Some root
  ∧ root !! "role" = Some (JStr "admin")
  ∧ (1 ≤ countDocuments "role" (JStr "admin")
           (deleteUser (Some admin1) "a2" accounts2).2)%nat
  ∧ (1 ≤ countDocuments "role" (JStr "admin")
           (deleteUser (Some admin1) "a1"
              (deleteUser (Some admin1) "a2" accounts2).2).2)%nat.
Proof.
  assert (role admin1 = "admin") as Hadmin by by_eval.
  assert (accounts2 !! id admin1 = Some root) as Hu by by_eval.
  assert (root !! "role" = Some (JStr "admin")) as Hrole by by_eval.
  assert ((deleteUser (Some admin1) "a2" accounts2).2 !! id admin1 = Some root)
    as Hu' by by_eval.
  repeat (split; [assumption|]). split.
  - exact (deleteUser_admin_keeps_an_admin admin1 "a2" accounts2 root
             Hadmin Hu Hrole).
  - exact (deleteUser_admin_keeps_an_admin admin1 "a1" _ root
             Hadmin Hu' Hrole).
Defined.

Example deleteUser_then_reads :
  getUserById None "u2" (deleteUser (Some admin1) "u2" accounts).2
  = JsonError 404 "User not found"
  ∧ count <$> dataOf (getUsers (deleteUser (Some admin1) "u2" accounts).2)
    = Some 2.
Proof. split; by_eval. Qed.

Lemma aliceOnly_unique : uniqueIndex "email" Scenes.aliceOnly.
Proof.
  unfold Scenes.aliceOnly.
  by intros uid1 uid2 doc1 doc2 v
    [<- _]%lookup_singleton_Some [<- _]%lookup_singleton_Some _ _.
Defined.

Lemma createUser_keeps_unique_witness :
  ("email" = "email" ∨ "email" = "githubId")
  ∧ uniqueIndex "email" Scenes.aliceOnly
  ∧ uniqueIndex "email"
      (createUser (λ s, s) (λ s, s) (Some octocat) "u3" 2000 Scenes.aliceOnly).2.
Proof.
  split; [by left|]. split; [exact aliceOnly_unique|].
  exact (createUser_keeps_unique (λ s, s) (λ s, s) (Some octocat) "u3" 2000
           Scenes.aliceOnly "email" (or_introl eq_refl) aliceOnly_unique).
Defined.

Lemma createUser_keeps_roles_witness :
  accounts !! "u3" = None
  ∧ countDocuments "role" (JStr "admin")
      (createUser (λ s, s) (λ s, s) (Some octocat) "u3" 2000 accounts).2
    = countDocuments "role" (JStr "admin") accounts.
Proof.
  assert (accounts !! "u3" = None) as Hfresh by by_eval.
  split; [exact Hfresh|].
  exact (createUser_keeps_roles (λ s, s) (λ s, s) (Some octocat) "u3" 2000 accounts
           (JStr "admin") Hfresh).
Defined.

Lemma createUser_then_getUserById_witness :
  gh_emails octocat = ["octocat@github.com"]
  ∧ "octocat@github.com" ≠ ""
  ∧ findOne "email" (JStr "octocat@github.com") accounts = false
  ∧ findOne "githubId" (JStr (gh_id octocat)) accounts = false
  ∧ "u3" ≠ "me"
  ∧ ∃ doc : Doc,
      createUser (λ s, s) (λ s, s) (Some octocat) "u3" 2000 accounts
      = (None, <["u3" := doc]> accounts)
      ∧ getUserById None "u3"
          (createUser (λ s, s) (λ s, s) (Some octocat) "u3" 2000 accounts).2
        = Json 200 doc
      ∧ doc !! "email" = Some (JStr "octocat@github.com")
      ∧ doc !! "isAdmin" = Some (JBool false)
      ∧ doc !! "role" = None.
Proof.
  assert (gh_emails octocat = ["octocat@github.com"]) as Hmail by by_eval.
  assert ("octocat@github.com" ≠ "") as Hempty by by_eval.
  assert (findOne "email" (JStr "octocat@github.com") accounts = false)
    as Hex by by_eval.
  assert (findOne "githubId" (JStr (gh_id octocat)) accounts = false)
    as Hgh by by_eval.
  assert ("u3" ≠ "me") as Hme by by_eval.
  repeat (split; [assumption|]).
  exact (createUser_then_getUserById (λ s, s) (λ s, s) octocat "octocat@github.com" []
           "u3" 2000 accounts Hmail Hempty Hex Hgh Hme).
Defined.

(** A login whose e-mail is empty once cast is refused by the [required]
    validator, and nothing is written. *)
Example createUser_empty_email :
  createUser (λ s, s) (λ s, s)
    (Some {| gh_id := "1"; gh_displayName := "Nobody"; gh_emails := [""] |})
    "u3" 2000 accounts
  = (Some validationError, accounts).
Proof. by_eval. Qed.

(** A second login with an e-mail that is new but a GitHub id that is
    taken is refused by the unique index, and nothing is written. *)
Example createUser_same_githubId :
  let first := (createUser (λ s, s) (λ s, s) (Some octocat) "u3" 2000 accounts).2 in
  createUser (λ s, s) (λ s, s)
    (Some {| gh_id := "583231"; gh_displayName := "Octo";
             gh_emails := ["octo@example.com"] |}) "u4" 3000 first
  = (Some "MongoServerError: E11000 duplicate key error", first).
Proof. by_eval. Qed.

Lemma me_is_own_id_witness :
  id customer1 ≠ ""
  ∧ getUserById (Some customer1) "me" accounts
    = getUserById (Some customer1) (id customer1) accounts
  ∧ updateUser' (Some customer1) "me" {[ "displayName" := JStr "Alice B." ]}
      2000 accounts
    = updateUser' (Some customer1) (id customer1)
        {[ "displayName" := JStr "Alice B." ]} 2000 accounts
  ∧ getUserById (Some customer1) "me" accounts ≠ JsonError 403 viewDenied
  ∧ (updateUser' (Some customer1) "me" {[ "displayName" := JStr "Alice B." ]}
       2000 accounts).1 ≠ JsonError 403 updateDenied.
Proof.
  assert (id customer1 ≠ "") as Hid by by_eval.
  split; [exact Hid|].
  exact (me_is_own_id sampleCast sampleOperators customer1 _ 2000 accounts Hid).
Defined.

End UserLookupProps.

(** * Properties of the wishlist controller *)

Module WishlistProps.
Import Users Wishlists Sample.

Lemma length_filter_all {A} (P : A → Prop) `{!∀ x, Decision (P x)} (l : list A) :
  length (filter P l) = length l ↔ Forall P l.
Proof.
  induction l as [|x l IH]; [by split; [constructor|]|].
  rewrite filter_cons. pose proof (length_filter P l) as Hle.
  case_decide as Hx; cbn [length]; split.
  - intros [= Hlen]. constructor; [done|by apply IH].
  - intros [_ Hall]%Forall_cons. f_equal. by apply IH.
  - intros Hlen. lia.
  - by intros [? _]%Forall_cons.
Qed.

Lemma filter_ne_app_singleton (f : string) (l : list string) :
  f ∉ l → filter (λ id, id ≠ f) (l ++ [f]) = l.
Proof.
  intros Hf. rewrite filter_app, filter_cons, decide_False by (by intros []).
  rewrite filter_nil, app_nil_r.
  induction l as [|x l IH]; [done|].
  apply not_elem_of_cons in Hf as [Hx Hl].
  by rewrite filter_cons, decide_True, IH by done.
Qed.

Lemma noDuplicates_insert wishlists user w :
  noDuplicates wishlists → NoDup (w_flowers w) →
  noDuplicates (<[user := w]> wishlists).
Proof.
  intros Hinv Hw user' w' Hlook.
  destruct (decide (user = user')) as [->|Hne].
  - rewrite lookup_insert_eq in Hlook. by injection Hlook as <-.
  - rewrite lookup_insert_ne in Hlook by done. by eapply Hinv.
Qed.

Section WithFlowers.
Context {F V : Type}.
Variable select : F → V.

Implicit Types (catalog : gmap string F) (wishlists : gmap string Wishlist).
Implicit Types (p : Principal) (reqUser : option Principal).

(** X16. No handler of the wishlist controller ever puts a flower twice
    into a wishlist: if no stored wishlist has a duplicate, none has one
    after [getWishlist], [addFlowerToWishlist], [removeFlowerFromWishlist]
    or [clearWishlist], whatever the request. *)
Theorem wishlist_writes_keep_noDuplicates
    reqUser flowerId catalog wid now wishlists :
  noDuplicates wishlists →
  noDuplicates (getWishlist select reqUser catalog wid now wishlists).2
  ∧ noDuplicates
      (addFlowerToWishlist select reqUser flowerId catalog wid now wishlists).2
  ∧ noDuplicates
      (removeFlowerFromWishlist select reqUser flowerId catalog now wishlists).2
  ∧ noDuplicates (clearWishlist (V:=V) reqUser now wishlists).2.
Proof.
  intros Hinv.
  unfold getWishlist, addFlowerToWishlist, removeFlowerFromWishlist,
    clearWishlist.
  destruct reqUser as [p|]; [|by destruct (catalog !! flowerId)].
  destruct (wishlists !! id p) as [w|] eqn:Hw.
  - pose proof (Hinv _ _ Hw) as Hnodup. repeat split; [done| | |].
    + destruct (catalog !! flowerId); [|done].
      case_bool_decide as Hin; [done|].
      apply noDuplicates_insert; [done|]. cbn.
      apply NoDup_app. split; [done|]. split; [|apply NoDup_singleton].
      intros x Hx ->%list_elem_of_singleton. done.
    + case_bool_decide; [done|].
      apply noDuplicates_insert; [done|]. cbn. by apply NoDup_filter.
    + apply noDuplicates_insert; [done|]. cbn. constructor.
  - repeat split; [|destruct (catalog !! flowerId); [|done]|done|done].
    + apply noDuplicates_insert; [done|]. cbn. constructor.
    + apply noDuplicates_insert; [done|]. cbn. apply NoDup_singleton.
Qed.

(** X17. A wishlist handler writes to no wishlist but the caller's, and
    writes nothing at all unless it answers with a success body. *)
Theorem wishlist_writes_own_only reqUser flowerId catalog wid now wishlists :
  ownWishlistOnly reqUser wishlists
    (getWishlist select reqUser catalog wid now wishlists)
  ∧ ownWishlistOnly reqUser wishlists
      (addFlowerToWishlist select reqUser flowerId catalog wid now wishlists)
  ∧ ownWishlistOnly reqUser wishlists
      (removeFlowerFromWishlist select reqUser flowerId catalog now wishlists)
  ∧ ownWishlistOnly reqUser wishlists
      (clearWishlist (V:=V) reqUser now wishlists).
Proof.
  assert (∀ p (w : Wishlist) user,
            (∀ p', Some p = Some p' → user ≠ id p') →
            <[id p := w]> wishlists !! user = wishlists !! user) as Hother.
  { intros p w user Hne. apply lookup_insert_ne, not_eq_sym. by apply Hne. }
  unfold getWishlist, addFlowerToWishlist, removeFlowerFromWishlist,
    clearWishlist, ownWishlistOnly.
  destruct reqUser as [p|]; [|by destruct (catalog !! flowerId)].
  destruct (wishlists !! id p) as [w|] eqn:Hw;
    destruct (catalog !! flowerId); repeat case_bool_decide;
    cbn [fst snd dataOf]; repeat split; try done; by apply Hother.
Qed.

(** X18. Adding a flower and removing it again. For a flower of the
    catalog that the caller's wishlist does not hold, [addFlowerToWishlist]
    answers 200 and puts it at the end of the list, and a following
    [removeFlowerFromWishlist] of the same flower answers 200 and leaves the
    list as it was before the two calls. *)
Theorem add_then_remove p flowerId flower catalog wid now now' wishlists w :
  catalog !! flowerId = Some flower →
  wishlists !! id p = Some w → flowerId ∉ w_flowers w →
  statusOf (addFlowerToWishlist select (Some p) flowerId catalog wid now
              wishlists).1 = Some 200
  ∧ flowersOf (addFlowerToWishlist select (Some p) flowerId catalog wid now
                 wishlists).2 (id p)
    = Some (w_flowers w ++ [flowerId])
  ∧ statusOf (removeFlowerFromWishlist select (Some p) flowerId catalog now'
                (addFlowerToWishlist select (Some p) flowerId catalog wid now
                   wishlists).2).1 = Some 200
  ∧ flowersOf (removeFlowerFromWishlist select (Some p) flowerId catalog now'
                 (addFlowerToWishlist select (Some p) flowerId catalog wid now
                    wishlists).2).2 (id p)
    = Some (w_flowers w).
Proof.
  intros Hfl Hw Hnotin.
  unfold addFlowerToWishlist. rewrite Hfl, Hw.
  rewrite bool_decide_eq_false_2 by done. cbn [fst snd statusOf].
  unfold removeFlowerFromWishlist, flowersOf. rewrite !lookup_insert_eq.
  cbn [w_flowers withFlowers]. rewrite filter_ne_app_singleton by done.
  rewrite bool_decide_eq_false_2 by (rewrite length_app; simpl; lia).
  cbn [fst snd statusOf]. by rewrite lookup_insert_eq.
Qed.

(** X19. A flower cannot be added twice: once [addFlowerToWishlist] has
    answered with a success body, the same request again, at any later
    time, is answered 400 "Flower already in wishlist" and writes
    nothing. *)
Theorem add_twice reqUser flowerId catalog wid now wid' now' wishlists :
  is_Some (dataOf (addFlowerToWishlist select reqUser flowerId catalog wid now
                     wishlists).1) →
  addFlowerToWishlist select reqUser flowerId catalog wid' now'
    (addFlowerToWishlist select reqUser flowerId catalog wid now wishlists).2
  = (JsonError 400 "Flower already in wishlist",
     (addFlowerToWishlist select reqUser flowerId catalog wid now wishlists).2).
Proof.
  unfold addFlowerToWishlist at 1 3 4.
  destruct (catalog !! flowerId) as [flower|] eqn:Hfl; [|by intros [? [=]]].
  destruct reqUser as [p|]; [|by intros [? [=]]].
  destruct (wishlists !! id p) as [w|] eqn:Hw.
  - case_bool_decide as Hin; [by intros [? [=]]|]. intros _. cbn [snd].
    unfold addFlowerToWishlist. rewrite Hfl, lookup_insert_eq.
    rewrite bool_decide_eq_true_2; [done|]. cbn. set_solver.
  - intros _. cbn [snd].
    unfold addFlowerToWishlist. rewrite Hfl, lookup_insert_eq.
    rewrite bool_decide_eq_true_2; [done|]. cbn. set_solver.
Qed.

(** X20. [removeFlowerFromWishlist] on an existing wishlist: a flower the
    list holds is taken out wherever it occurs, the other flowers stay in
    their order, and the answer is 200; a flower the list does not hold is
    answered 404 "Flower not found in wishlist" and nothing is written. *)
Theorem remove_effect p flowerId catalog now wishlists w :
  wishlists !! id p = Some w →
  (flowerId ∈ w_flowers w →
     statusOf (removeFlowerFromWishlist select (Some p) flowerId catalog now
                 wishlists).1 = Some 200
     ∧ flowersOf (removeFlowerFromWishlist select (Some p) flowerId catalog now
                    wishlists).2 (id p)
       = Some (filter (λ id, id ≠ flowerId) (w_flowers w)))
  ∧ (flowerId ∉ w_flowers w →
     removeFlowerFromWishlist select (Some p) flowerId catalog now wishlists
     = (JsonError 404 "Flower not found in wishlist", wishlists)).
Proof.
  intros Hw. unfold removeFlowerFromWishlist. rewrite Hw. split; intros Hin.
  - rewrite bool_decide_eq_false_2.
    + cbn [fst snd statusOf]. unfold flowersOf.
      by rewrite lookup_insert_eq.
    + rewrite length_filter_all, Forall_forall. intros Hall.
      by apply (Hall flowerId).
  - rewrite bool_decide_eq_true_2; [done|].
    apply length_filter_all, Forall_forall. by intros x Hx ->.
Qed.


(** X25. Without a session nothing is written to the accounts or to the
    wishlists: [updateUser], [deleteUser] and the four wishlist handlers
    leave the collection they work on as it was, whatever else the request
    says, and none of them answers with a success body. *)
Theorem no_session_no_write
    castPath applyOperators
    paramId body flowerId catalog wid now users wishlists :
  updateUser castPath applyOperators None paramId body now users
    = ((updateUser castPath applyOperators None paramId body now users).1,
       users)
  ∧ deleteUser None paramId users
    = ((deleteUser None paramId users).1, users)
  ∧ getWishlist select None catalog wid now wishlists
    = (Next None typeError, wishlists)
  ∧ (addFlowerToWishlist select None flowerId catalog wid now wishlists).2
    = wishlists
  ∧ removeFlowerFromWishlist select None flowerId catalog now wishlists
    = (Next None typeError, wishlists)
  ∧ clearWishlist (V:=V) None now wishlists = (Next None typeError, wishlists)
  ∧ dataOf (updateUser castPath applyOperators None paramId body now users).1
    = None
  ∧ dataOf (deleteUser None paramId users).1 = None
  ∧ dataOf (addFlowerToWishlist select None flowerId catalog wid now
              wishlists).1 = None.
Proof.
  unfold updateUser, deleteUser, addFlowerToWishlist.
  repeat split; try done.
  - by case_bool_decide.
  - by destruct (users !! paramId).
  - by destruct (catalog !! flowerId).
  - by case_bool_decide.
  - by destruct (users !! paramId).
  - by destruct (catalog !! flowerId).
Qed.

End WithFlowers.

(** ** Concrete runs *)

Ltac by_eval := vm_compute; first [reflexivity | exact I | discriminate].

Lemma wishes_noDuplicates : noDuplicates Scenes.wishes.
Proof.
  unfold Scenes.wishes. intros user w [<- <-]%lookup_singleton_Some.
  apply NoDup_singleton.
Defined.

Lemma wishlist_writes_keep_noDuplicates_witness :
  noDuplicates Scenes.wishes
  ∧ noDuplicates
      (getWishlist Orders.price (Some customer1) roses "w2" 2000 Scenes.wishes).2
  ∧ noDuplicates
      (addFlowerToWishlist Orders.price (Some customer1) "p2" roses "w2" 2000
         Scenes.wishes).2
  ∧ noDuplicates
      (removeFlowerFromWishlist Orders.price (Some customer1) "p2" roses 2000
         Scenes.wishes).2
  ∧ noDuplicates (clearWishlist (V:=Z) (Some customer1) 2000 Scenes.wishes).2.
Proof.
  split; [exact wishes_noDuplicates|].
  exact (wishlist_writes_keep_noDuplicates Orders.price (Some customer1) "p2"
           roses "w2" 2000 Scenes.wishes wishes_noDuplicates).
Defined.

Lemma add_then_remove_witness :
  roses !! "p2" = Some {| Orders.name := "White Lily"; Orders.price := 15%Z |}
  ∧ Scenes.wishes !! id customer1 = Some Scenes.aliceWishes
  ∧ ("p2" ∉ w_flowers Scenes.aliceWishes)
  ∧ flowersOf (addFlowerToWishlist Orders.price (Some customer1) "p2" roses
                 "w2" 2000 Scenes.wishes).2 (id customer1)
    = Some (w_flowers Scenes.aliceWishes ++ ["p2"])
  ∧ flowersOf (removeFlowerFromWishlist Orders.price (Some customer1) "p2"
                 roses 3000
                 (addFlowerToWishlist Orders.price (Some customer1) "p2" roses
                    "w2" 2000 Scenes.wishes).2).2 (id customer1)
    = Some (w_flowers Scenes.aliceWishes).
Proof.
  assert (roses !! "p2"
          = Some {| Orders.name := "White Lily"; Orders.price := 15%Z |})
    as Hfl by by_eval.
  assert (Scenes.wishes !! id customer1 = Some Scenes.aliceWishes)
    as Hw by by_eval.
  assert ("p2" ∉ w_flowers Scenes.aliceWishes) as Hnotin
    by (apply (bool_decide_eq_false_1 _); by_eval).
  repeat (split; [assumption|]).
  destruct (add_then_remove Orders.price customer1 "p2" _ roses "w2" 2000 3000
              Scenes.wishes Scenes.aliceWishes Hfl Hw Hnotin)
    as (_ & Hadd & _ & Hremove).
  exact (conj Hadd Hremove).
Defined.

Lemma add_twice_witness :
  is_Some (dataOf (addFlowerToWishlist Orders.price (Some customer1) "p2"
                     roses "w2" 2000 Scenes.wishes).1)
  ∧ addFlowerToWishlist Orders.price (Some customer1) "p2" roses "w3" 3000
      (addFlowerToWishlist Orders.price (Some customer1) "p2" roses "w2" 2000
         Scenes.wishes).2
    = (JsonError 400 "Flower already in wishlist",
       (addFlowerToWishlist Orders.price (Some customer1) "p2" roses "w2" 2000
          Scenes.wishes).2).
Proof.
  assert (is_Some (dataOf (addFlowerToWishlist Orders.price (Some customer1)
                             "p2" roses "w2" 2000 Scenes.wishes).1)) as Hok
    by (eexists; vm_compute; reflexivity).
  split; [exact Hok|].
  exact (add_twice Orders.price (Some customer1) "p2" roses "w2" 2000 "w3" 3000
           Scenes.wishes Hok).
Defined.

Lemma remove_effect_witness :
  Scenes.wishes !! id customer1 = Some Scenes.aliceWishes
  ∧ "p1" ∈ w_flowers Scenes.aliceWishes
  ∧ ("p2" ∉ w_flowers Scenes.aliceWishes)
  ∧ flowersOf (removeFlowerFromWishlist Orders.price (Some customer1) "p1"
                 roses 2000 Scenes.wishes).2 (id customer1)
    = Some (filter (λ id, id ≠ "p1") (w_flowers Scenes.aliceWishes))
  ∧ removeFlowerFromWishlist Orders.price (Some customer1) "p2" roses 2000
      Scenes.wishes
    = (JsonError 404 "Flower not found in wishlist", Scenes.wishes).
Proof.
  assert (Scenes.wishes !! id customer1 = Some Scenes.aliceWishes)
    as Hw by by_eval.
  assert ("p1" ∈ w_flowers Scenes.aliceWishes) as Hin
    by (apply (bool_decide_unpack _); by_eval).
  assert ("p2" ∉ w_flowers Scenes.aliceWishes) as Hnotin
    by (apply (bool_decide_eq_false_1 _); by_eval).
  repeat (split; [assumption|]). split.
  - exact (proj2 (proj1 (remove_effect Orders.price customer1 "p1" roses 2000
                           Scenes.wishes Scenes.aliceWishes Hw) Hin)).
  - exact (proj2 (remove_effect Orders.price customer1 "p2" roses 2000
                    Scenes.wishes Scenes.aliceWishes Hw) Hnotin).
Defined.

(** The answer to an add lists the flowers populated, here with their
    prices; an unknown flower is answered 404 before the session is looked
    at. *)
Example addFlowerToWishlist_runs :
  wishlist <$> dataOf (addFlowerToWishlist Orders.price (Some customer1) "p2"
                         roses "w2" 2000 Scenes.wishes).1
  = Some (Populated
            (withFlowers Scenes.aliceWishes ["p1"; "p2"] 2000)
            [("p1", 10%Z); ("p2", 15%Z)])
  ∧ addFlowerToWishlist Orders.price None "p9" roses "w2" 2000 Scenes.wishes
    = (JsonError 404 "Flower not found", Scenes.wishes)
  ∧ addFlowerToWishlist Orders.price None "p2" roses "w2" 2000 Scenes.wishes
    = (Next None typeError, Scenes.wishes).
Proof. repeat split; by_eval. Qed.

End WishlistProps.

(** * Properties of the category controller *)

Module CategoryProps.
Import Users Categories.

Implicit Types (categories : gmap string Doc).

(** X22. [deleteCategoryById] always answers 200: [deletedCount] is 1 when
    the id was stored and 0 when it was not. Afterwards the id is gone,
    so that [getCategoryById] answers 404 and a second delete reports 0
    and changes nothing, and every other category is as it was. *)
Theorem deleteCategoryById_effect id categories :
  (∃ result,
     (deleteCategoryById id categories).1 = Json 200 result
     ∧ (deletedCount result = 1 ↔ is_Some (categories !! id))
     ∧ (deletedCount result = 0 ↔ categories !! id = None))
  ∧ getCategoryById id (deleteCategoryById id categories).2
    = Next (Some 404) ("Category not found with ID of " +:+ id)
  ∧ deleteCategoryById id (deleteCategoryById id categories).2
    = (Json 200 {| acknowledged := true; deletedCount := 0 |},
       (deleteCategoryById id categories).2)
  ∧ ∀ id', id' ≠ id →
      (deleteCategoryById id categories).2 !! id' = categories !! id'.
Proof.
  unfold deleteCategoryById, getCategoryById. cbn [fst snd].
  rewrite !lookup_delete_eq. split; [|split; [done|split]].
  - eexists. split; [done|]. cbn.
    destruct (categories !! id); split; try done; by intros [? [=]].
  - by rewrite delete_id by apply lookup_delete_eq.
  - intros id' Hne. by apply lookup_delete_ne.
Qed.

Section UpdateCategory.
Variable applyUpdate : Doc → string → Doc → gmap string Doc → string + Doc.

(** X23. [updateCategoryById] never creates a category, whatever the
    schema makes of the update: for an id that is not stored it answers
    200 with the body [null], where [getCategoryById] answers 404, and
    writes nothing; in every case the stored ids are the same before and
    after, and no category other than the one addressed changes. *)
Theorem updateCategoryById_never_creates id body categories :
  (categories !! id = None →
     updateCategoryById applyUpdate id body categories
     = (Json 200 None, categories)
     ∧ getCategoryById id categories
       = Next (Some 404) ("Category not found with ID of " +:+ id))
  ∧ dom (updateCategoryById applyUpdate id body categories).2 = dom categories
  ∧ ∀ id', id' ≠ id →
      (updateCategoryById applyUpdate id body categories).2 !! id'
      = categories !! id'.
Proof.
  unfold updateCategoryById, getCategoryById.
  destruct (categories !! id) as [category|] eqn:Hc; [|done].
  split; [done|].
  destruct (applyUpdate body id category categories); [done|]. cbn [snd].
  split; [by apply dom_insert_lookup_L|].
  intros id' Hne. by apply lookup_insert_ne.
Qed.

End UpdateCategory.

End CategoryProps.
